(** * G-code parser: tool changes, retractions, tool paths

    A shallow embedding of [gcode_parser.py] (classes [GCodeParser] and
    [GCodeParserApp]) and the properties of its analysis passes.

    Python values are rendered as follows.
    - [str] is [string]; a character is an [ascii], so the model covers
      text whose code points are below 256.
    - [float] is an IEEE-754 binary64 value, [spec_float] with precision 53
      and maximal exponent 1024, with the operations of [SpecFloat].
    - a raised exception is [None] in the [option] monad.
    - the regular expressions of the source are terms of [regex], run by a
      backtracking matcher that lists the ways a pattern matches in the
      order Python's [re] tries them. *)

From Stdlib Require Import ZArith String Ascii List Lia Bool.
From Stdlib Require Import Sorting.Sorted Sorting.Permutation.
From Stdlib Require Import Floats.SpecFloat.
From stdpp Require Import base option list gmap strings pretty.
Import ListNotations.

Local Open Scope string_scope.
Local Open Scope list_scope.

(** ** Python string helpers *)

Module PyStr.

(** [str.isspace] on code points below 256: TAB..CR, FS..US, SPACE,
    NEL (0x85) and NBSP (0xA0).  It is also what [\s] matches. *)
Definition is_space (c : ascii) : bool :=
  let n := nat_of_ascii c in
  (((9 <=? n) && (n <=? 13)) || ((28 <=? n) && (n <=? 32))
   || (n =? 133) || (n =? 160))%nat.

Definition is_digit (c : ascii) : bool :=
  let n := nat_of_ascii c in ((48 <=? n) && (n <=? 57))%nat.

(** What [\w] matches on code points below 256: the letters, the
    digits and other numeric characters, and the underscore. *)
Definition is_word (c : ascii) : bool :=
  let n := nat_of_ascii c in
  (((48 <=? n) && (n <=? 57)) || ((65 <=? n) && (n <=? 90)) || (n =? 95)
   || ((97 <=? n) && (n <=? 122)) || (n =? 170) || (n =? 178) || (n =? 179)
   || (n =? 181) || (n =? 185) || (n =? 186)
   || ((188 <=? n) && (n <=? 190)) || ((192 <=? n) && (n <=? 214))
   || ((216 <=? n) && (n <=? 246)) || ((248 <=? n) && (n <=? 255)))%nat.

(** [c.upper()] on the letters a..z; other characters are left as they
    are (the source applies it to an axis letter only). *)
Definition upper (c : ascii) : ascii :=
  let n := nat_of_ascii c in
  if ((97 <=? n) && (n <=? 122))%nat then ascii_of_nat (n - 32) else c.

Definition is_empty (s : string) : bool :=
  match s with EmptyString => true | String _ _ => false end.

Fixpoint lstrip (s : string) : string :=
  match s with
  | String c s' => if is_space c then lstrip s' else s
  | EmptyString => EmptyString
  end.

Fixpoint rstrip (s : string) : string :=
  match s with
  | String c s' =>
      let t := rstrip s' in
      if is_empty t && is_space c then EmptyString else String c t
  | EmptyString => EmptyString
  end.

(** [s.strip()] *)
Definition strip (s : string) : string := rstrip (lstrip s).

(** [s.startswith(c)] for a one-character prefix. *)
Definition startswith (c : ascii) (s : string) : bool :=
  match s with String d _ => Ascii.eqb c d | EmptyString => false end.

(** ["\n".join(parts)] *)
Fixpoint join (sep : string) (parts : list string) : string :=
  match parts with
  | [] => ""
  | [p] => p
  | p :: rest => p +:+ sep +:+ join sep rest
  end.

(** [enumerate(l, start)] *)
Fixpoint enumerate {A} (start : nat) (l : list A) : list (nat * A) :=
  match l with
  | [] => []
  | x :: l' => (start, x) :: enumerate (S start) l'
  end.

(** [l[i]] with Python's negative indices; [None] is IndexError. *)
Definition getitem {A} (l : list A) (i : Z) : option A :=
  let n := Z.of_nat (length l) in
  if (0 <=? i)%Z then l !! Z.to_nat i
  else if (0 <=? n + i)%Z then l !! Z.to_nat (n + i)
  else None.

(** A [for] loop whose body may raise. *)
Fixpoint for_loop {S A} (body : S -> A -> option S) (l : list A) (st : S)
  : option S :=
  match l with
  | [] => Some st
  | x :: l' => st' ← body st x; for_loop body l' st'
  end.

End PyStr.

(** ** Regular expressions

    The fragment of Python's [re] syntax the source uses: character sets,
    sequence, alternation, greedy repetition, one capturing group, and
    the boundary [\b] where it follows a word character ([EndOfWord]:
    the subject ends or goes on with a character that [\w] rejects). *)

Module Re.

Inductive regex : Type :=
| Eps
| Cls (p : ascii -> bool)
| Seq (r1 r2 : regex)
| Alt (r1 r2 : regex)
| Star (r : regex)
| Grp (r : regex)
| EndOfWord.

Definition Plus (r : regex) : regex := Seq r (Star r).
Definition Opt (r : regex) : regex := Alt r Eps.

Definition lit (c : ascii) : regex := Cls (Ascii.eqb c).
(** a literal under [re.IGNORECASE] *)
Definition lit_i (c : ascii) : regex :=
  Cls (fun d => Ascii.eqb (PyStr.upper c) (PyStr.upper d)).
Definition one_of (cs : string) : regex :=
  Cls (fun d => existsb (Ascii.eqb d) (list_ascii_of_string cs)).
Definition none_of (cs : string) : regex :=
  Cls (fun d => negb (existsb (Ascii.eqb d) (list_ascii_of_string cs))).
Definition digit : regex := Cls PyStr.is_digit.
Definition space : regex := Cls PyStr.is_space.
(** [.] matches everything but a newline *)
Definition dot : regex := Cls (fun d => negb (Ascii.eqb d "010"%char)).

Fixpoint word (w : string) : regex :=
  match w with
  | EmptyString => Eps
  | String c EmptyString => lit c
  | String c w' => Seq (lit c) (word w')
  end.

(** One way of matching at the start of the subject: the text consumed,
    the text of group 1 if it took part, and what is left. *)
Record hit := Hit { consumed : string; group1 : option string; rest : string }.

Definition later (g1 g2 : option string) : option string :=
  match g2 with Some _ => g2 | None => g1 end.

Definition then_hit (h : hit) (h' : hit) : hit :=
  Hit (consumed h +:+ consumed h') (later (group1 h) (group1 h')) (rest h').

(** Greedy iteration of a body given as a function; every round must
    consume a character, so the length of the subject bounds the
    number of rounds. *)
Fixpoint iterate (body : string -> list hit) (fuel : nat) (s : string)
  : list hit :=
  match fuel with
  | O => [Hit "" None s]
  | S fuel' =>
      flat_map (fun h =>
                  if PyStr.is_empty (consumed h) then []
                  else map (then_hit h) (iterate body fuel' (rest h)))
               (body s)
      ++ [Hit "" None s]
  end.

(** All the ways [r] matches a prefix of [s], in the order a
    backtracking matcher explores them: the head is the match Python
    reports. *)
Fixpoint run (r : regex) (s : string) : list hit :=
  match r with
  | Eps => [Hit "" None s]
  | Cls p =>
      match s with
      | String c s' => if p c then [Hit (String c "") None s'] else []
      | EmptyString => []
      end
  | Seq r1 r2 =>
      flat_map (fun h => map (then_hit h) (run r2 (rest h))) (run r1 s)
  | Alt r1 r2 => run r1 s ++ run r2 s
  | Star r1 => iterate (run r1) (String.length s) s
  | Grp r1 =>
      map (fun h => Hit (consumed h) (Some (consumed h)) (rest h)) (run r1 s)
  | EndOfWord =>
      match s with
      | String c _ => if PyStr.is_word c then [] else [Hit "" None s]
      | EmptyString => [Hit "" None s]
      end
  end.

(** [re.match(r, s)] *)
Definition match_ (r : regex) (s : string) : option hit :=
  head (run r s).

(** [re.search(r, s)]: the first position with a match. *)
Fixpoint search (r : regex) (s : string) : option hit :=
  match run r s with
  | h :: _ => Some h
  | [] =>
      match s with
      | String _ s' => search r s'
      | EmptyString => None
      end
  end.

Fixpoint finditer_from (fuel : nat) (r : regex) (s : string) : list hit :=
  match fuel with
  | O => []
  | S fuel' =>
      match search r s with
      | None => []
      | Some h =>
          h :: (if PyStr.is_empty (consumed h) then
                  match rest h with
                  | String _ s' => finditer_from fuel' r s'
                  | EmptyString => []
                  end
                else finditer_from fuel' r (rest h))
      end
  end.

(** [re.finditer(r, s)]: the successive non-overlapping matches. *)
Definition finditer (r : regex) (s : string) : list hit :=
  finditer_from (S (String.length s)) r s.

Fixpoint remove_from (fuel : nat) (r : regex) (s : string) : string :=
  match fuel with
  | O => s
  | S fuel' =>
      let keep :=
        match s with
        | String c s' => String c (remove_from fuel' r s')
        | EmptyString => EmptyString
        end in
      match run r s with
      | h :: _ =>
          if PyStr.is_empty (consumed h) then keep
          else remove_from fuel' r (rest h)
      | [] => keep
      end
  end.

(** [re.sub(r, '', s)]: every match deleted. *)
Definition remove (r : regex) (s : string) : string :=
  remove_from (S (String.length s)) r s.

(** The words of a pattern, as a relation: what the matcher is sound
    for. *)
Inductive lang : regex -> string -> Prop :=
| lang_eps : lang Eps ""
| lang_cls (p : ascii -> bool) (c : ascii) :
    p c = true -> lang (Cls p) (String c "")
| lang_seq (r1 r2 : regex) (w1 w2 : string) :
    lang r1 w1 -> lang r2 w2 -> lang (Seq r1 r2) (w1 +:+ w2)
| lang_alt_l (r1 r2 : regex) (w : string) : lang r1 w -> lang (Alt r1 r2) w
| lang_alt_r (r1 r2 : regex) (w : string) : lang r2 w -> lang (Alt r1 r2) w
| lang_star_nil (r : regex) : lang (Star r) ""
| lang_star_more (r : regex) (w1 w2 : string) :
    lang r w1 -> lang (Star r) w2 -> lang (Star r) (w1 +:+ w2)
| lang_grp (r : regex) (w : string) : lang r w -> lang (Grp r) w
| lang_end_of_word : lang EndOfWord "".

End Re.

(** ** Python floats (IEEE-754 binary64) *)

Module PyFloat.

Definition prec : Z := 53.
Definition emax : Z := 1024.

Abbreviation float := spec_float.

Definition add : float -> float -> float := SFadd prec emax.
Definition sub : float -> float -> float := SFsub prec emax.
Definition mul : float -> float -> float := SFmul prec emax.
Definition abs : float -> float := SFabs.
(** [x < y] and [x == y]; both are false when a NaN is involved. *)
Definition ltb : float -> float -> bool := SFltb.
Definition eqb : float -> float -> bool := SFeqb.

(** The binary64 value nearest to [n / d], ties to even, with the sign
    [neg]: the division algorithm of [SpecFloat] run on the two
    integers. *)
Definition of_ratio (neg : bool) (n : N) (d : positive) : float :=
  match n with
  | N0 => S754_zero neg
  | Npos p => SFdiv prec emax (S754_finite neg p 0) (S754_finite false d 0)
  end.

(** The float written [n * 10^-k] in decimal, correctly rounded. *)
Definition of_decimal (neg : bool) (n : N) (k : nat) : float :=
  of_ratio neg n (Z.to_pos (10 ^ Z.of_nat k)).

(** [float(n)] for a non-negative integer. *)
Definition of_nat (n : nat) : float :=
  binary_normalize prec emax (Z.of_nat n) 0 false.

(** [x / n] for a float [x] and an integer [n >= 0]: [n] is converted
    to a float and the division raises ZeroDivisionError ([None]) when
    that float is zero, that is when [n] is 0. *)
Definition truediv_int (x : float) (n : nat) : option float :=
  match n with
  | O => None
  | S _ => Some (SFdiv prec emax x (of_nat n))
  end.

(** [sum(xs)]: the items added from left to right to the start value 0.
    (CPython 3.12 and later carry a compensation term along,
    [sum_compensated] below.) *)
Definition sum (xs : list float) : float :=
  fold_left add xs (S754_zero false).

(** [x <= y] *)
Definition leb : float -> float -> bool := SFleb.

Definition is_finite (x : float) : bool :=
  match x with S754_zero _ | S754_finite _ _ _ => true | _ => false end.

(** One step of the compensated sum: [hi] is the running sum, [lo] the
    rounding error gathered so far. *)
Definition cs_add (total : float * float) (x : float) : float * float :=
  let '(hi, lo) := total in
  let t := add hi x in
  (t, if leb (abs x) (abs hi) then add lo (add (sub hi t) x)
      else add lo (add (sub x t) hi)).

(** [sum(xs)] as CPython 3.12 and later compute it. *)
Definition sum_compensated (xs : list float) : float :=
  let '(hi, lo) := fold_left cs_add xs (S754_zero false, S754_zero false) in
  if negb (eqb lo (S754_zero false)) && is_finite lo then add hi lo else hi.

(** *** Reading a decimal literal *)

Definition digit_value (c : ascii) : N := N_of_ascii c - 48.

Fixpoint digits_to_N (acc : N) (ds : string) : N :=
  match ds with
  | EmptyString => acc
  | String c ds' => digits_to_N (acc * 10 + digit_value c) ds'
  end.

(** The leading run of digits and what follows it. *)
Fixpoint span_digits (s : string) : string * string :=
  match s with
  | String c s' =>
      if PyStr.is_digit c then
        let '(ds, r) := span_digits s' in (String c ds, r)
      else (EmptyString, s)
  | EmptyString => (EmptyString, EmptyString)
  end.

Definition split_sign (s : string) : bool * string :=
  match s with
  | String "-" s' => (true, s')
  | String "+" s' => (false, s')
  | _ => (false, s)
  end.

(** The literal after its sign: digits, then optionally a point and more
    digits, with at least one digit in all. *)
Definition of_unsigned (neg : bool) (s1 : string) : option float :=
  let '(ip, s2) := span_digits s1 in
  let '(fp, s3) :=
    match s2 with
    | String "." s2' => span_digits s2'
    | _ => (EmptyString, s2)
    end in
  if PyStr.is_empty s3 && negb (PyStr.is_empty (ip +:+ fp)) then
    Some (of_decimal neg (digits_to_N 0 (ip +:+ fp)) (String.length fp))
  else None.

(** [float(s)] for the literals made of an optional sign, digits, and
    optionally a point and more digits, with at least one digit in all;
    [None] stands for every other text (Python rejects most of them
    with ValueError, and the number pattern of the source never
    captures one). *)
Definition of_string (s : string) : option float :=
  let '(neg, s1) := split_sign s in of_unsigned neg s1.

(** *** Rounding to decimals *)

(** The integer nearest to [num / den], ties to even. *)
Definition round_half_even (num den : Z) : Z :=
  let q := (num / den)%Z in
  let r := (num mod den)%Z in
  match (2 * r ?= den)%Z with
  | Lt => q
  | Gt => (q + 1)%Z
  | Eq => if Z.even q then q else (q + 1)%Z
  end.

(** The integer nearest to [m * 2^e * 10^k]. *)
Definition scaled (m : positive) (e : Z) (k : nat) : Z :=
  let n := (Z.pos m * 10 ^ Z.of_nat k)%Z in
  if (0 <=? e)%Z then (n * 2 ^ e)%Z else round_half_even n (2 ^ (- e))%Z.

(** [round(x, k)] for [k >= 0]: the exact value of [x] is rounded to
    [k] decimals and the decimal is read back. *)
Definition round (x : float) (k : nat) : float :=
  match x with
  | S754_finite s m e => of_decimal s (Z.to_N (scaled m e k)) k
  | _ => x
  end.

(** *** Printing with a fixed number of decimals *)

Fixpoint zeros (n : nat) : string :=
  match n with O => "" | S n' => String "0" (zeros n') end.

Definition fixed_digits (n : Z) (k : nat) : string :=
  let p := (10 ^ Z.of_nat k)%Z in
  let frac := pretty (n mod p)%Z in
  pretty (n / p)%Z
  +:+ (if k is O then ""
       else "." +:+ zeros (k - String.length frac) +:+ frac).

(** [format(x, '.kf')] *)
Definition format_fixed (x : float) (k : nat) : string :=
  match x with
  | S754_nan => "nan"
  | S754_infinity s => if s then "-inf" else "inf"
  | S754_zero s => (if s then "-" else "") +:+ fixed_digits 0 k
  | S754_finite s m e =>
      (if s then "-" else "") +:+ fixed_digits (scaled m e k) k
  end.

End PyFloat.

(** ** Data model *)

Import PyFloat.

(** The position dictionary [{'X': .., 'Y': .., 'Z': ..}]. *)
Record Position := { pos_X : float; pos_Y : float; pos_Z : float }.

Definition origin : Position :=
  {| pos_X := S754_zero false; pos_Y := S754_zero false;
     pos_Z := S754_zero false |}.

(** [current_pos[axis] = value] for an axis letter. *)
Definition set_axis (axis : ascii) (value : float) (p : Position) : Position :=
  if Ascii.eqb axis "X" then
    {| pos_X := value; pos_Y := pos_Y p; pos_Z := pos_Z p |}
  else if Ascii.eqb axis "Y" then
    {| pos_X := pos_X p; pos_Y := value; pos_Z := pos_Z p |}
  else if Ascii.eqb axis "Z" then
    {| pos_X := pos_X p; pos_Y := pos_Y p; pos_Z := value |}
  else p.

(** An entry of [self.tool_changes].  [tc_tool_number] is
    [match.group(1)], which is [None] for a group that took no part. *)
Record ToolChangeEvent := {
  tc_line_number : nat;
  tc_tool_number : option string;
  tc_line_content : string
}.

(** An entry of [self.retractions].  The keys ['grouped'] and
    ['group_size'] are absent until the grouping pass sets them. *)
Record RetractionEvent := {
  r_line_number : nat;
  r_z_height : float;
  r_line_content : string;
  r_end_line : nat;
  r_end_content : string;
  r_grouped : option bool;
  r_group_size : option nat
}.

(** The fields of a [GCodeParser] object that the analysis uses. *)
Record GCodeParser := {
  lines : list string;
  tool_changes : list ToolChangeEvent;
  retractions : list RetractionEvent
}.

(** ** Patterns of the source *)

Module Pat.
Import Re.

(** [[-+]?\d*\.?\d+] *)
Definition number : regex :=
  Seq (Opt (one_of "-+")) (Seq (Star digit) (Seq (Opt (lit ".")) (Plus digit))).

(** [T(\d+)] *)
Definition tool_T : regex := Seq (lit "T") (Grp (Plus digit)).
(** [M6\s+T(\d+)] *)
Definition tool_M6 : regex :=
  Seq (word "M6") (Seq (Plus space) (Seq (lit "T") (Grp (Plus digit)))).
(** [M06\s+T(\d+)] *)
Definition tool_M06 : regex :=
  Seq (word "M06") (Seq (Plus space) (Seq (lit "T") (Grp (Plus digit)))).
(** [M61\s+Q(\d+)] *)
Definition tool_M61 : regex :=
  Seq (word "M61") (Seq (Plus space) (Seq (lit "Q") (Grp (Plus digit)))).

Definition tool_change_patterns : list regex :=
  [tool_T; tool_M6; tool_M06; tool_M61].

(** [\([^)]*\)] *)
Definition paren_comment : regex :=
  Seq (lit "(") (Seq (Star (none_of ")")) (lit ")")).
(** [;.*] *)
Definition semicolon_comment : regex := Seq (lit ";") (Star dot).

(** [[GgMm] (?: \d+ \.? \d* ) \s+ .* [Zz] ( [-+]? \d* \.? \d+ )],
    its parts set apart by blanks here *)
Definition z_movement_pattern : regex :=
  Seq (one_of "GgMm")
    (Seq (Seq (Plus digit) (Seq (Opt (lit ".")) (Star digit)))
       (Seq (Plus space)
          (Seq (Star dot) (Seq (one_of "Zz") (Grp number))))).
(** [[Gg]0] *)
Definition rapid_move_pattern : regex := Seq (one_of "Gg") (lit "0").
(** [[XxYyZz]([-+]?\d*\.?\d+)] *)
Definition position_pattern : regex := Seq (one_of "XxYyZz") (Grp number).

(** [rf'{axis}([-+]?\d*\.?\d+)'] compiled with [re.IGNORECASE] *)
Definition axis_pattern (axis : ascii) : regex :=
  Seq (lit_i axis) (Grp number).

(** [G0\b|G00\b] compiled with [re.IGNORECASE] *)
Definition rapid_prefix : regex :=
  Alt (Seq (lit_i "G") (Seq (lit "0") EndOfWord))
      (Seq (lit_i "G") (Seq (word "00") EndOfWord)).
End Pat.

(** ** class GCodeParser *)

(** The test that skips comment lines and empty lines. *)
Definition is_skipped (line : string) : bool :=
  PyStr.startswith ";" line || PyStr.startswith "(" line || PyStr.is_empty line.

(** The two [re.sub] calls that delete inline comments. *)
Definition remove_comments (line : string) : string :=
  Re.remove Pat.semicolon_comment (Re.remove Pat.paren_comment line).

(** The [for pattern in tool_change_patterns] loop: the group of the
    first pattern found in the line, then [break]. *)
Fixpoint first_match (patterns : list Re.regex) (clean_line : string)
  : option (option string) :=
  match patterns with
  | [] => None
  | pattern :: patterns' =>
      match Re.search pattern clean_line with
      | Some m => Some (Re.group1 m)
      | None => first_match patterns' clean_line
      end
  end.

Definition tool_change_body (found : list ToolChangeEvent)
  (item : nat * string) : list ToolChangeEvent :=
  let '(line_number, raw) := item in
  let line := PyStr.strip raw in
  if is_skipped line then found
  else
    let clean_line := remove_comments line in
    match first_match Pat.tool_change_patterns clean_line with
    | Some tool_number =>
        found ++ [{| tc_line_number := line_number;
                     tc_tool_number := tool_number;
                     tc_line_content := line |}]
    | None => found
    end.

Definition detect_tool_changes (ls : list string) : list ToolChangeEvent :=
  fold_left tool_change_body (PyStr.enumerate 1 ls) [].

(** *** detect_retractions *)

(** The local variables of [detect_retractions] and the list
    [self.retractions] under construction. *)
Record Scan := {
  current_pos : Position;
  prev_z : float;
  in_retraction : bool;
  retraction_start_line : nat;
  retraction_start_height : float;
  emitted : list RetractionEvent
}.

Definition scan_start : Scan :=
  {| current_pos := origin; prev_z := S754_zero false;
     in_retraction := false; retraction_start_line := 0;
     retraction_start_height := S754_zero false; emitted := [] |}.

(** The rise threshold 0.5 and the grouping tolerance 0.1. *)
Definition rise_threshold : float := of_decimal false 5 1.
Definition height_tolerance : float := of_decimal false 1 1.

(** The loop over [position_matches]: each match assigns its axis.
    [float(None)] and [float] of a malformed text raise. *)
Definition assign_match (p : Position) (m : Re.hit) : option Position :=
  match Re.consumed m with
  | String c _ =>
      text ← Re.group1 m;
      value ← of_string text;
      Some (set_axis (PyStr.upper c) value p)
  | EmptyString => None
  end.

Definition update_position (p : Position) (clean_line : string)
  : option Position :=
  PyStr.for_loop assign_match (Re.finditer Pat.position_pattern clean_line) p.

(** [re.search(z_movement_pattern, clean_line) is not None] *)
Definition is_z_movement (clean_line : string) : bool :=
  bool_decide (is_Some (Re.search Pat.z_movement_pattern clean_line)).

(** [re.search(rapid_move_pattern, clean_line) is not None] *)
Definition is_rapid (clean_line : string) : bool :=
  bool_decide (is_Some (Re.search Pat.rapid_move_pattern clean_line)).

(** The first [if] of the loop body: a significant rise of Z starts a
    retraction unless one is under way. *)
Definition note_rise (line_number : nat) (is_z_movement : bool)
  (pos : Position) (st : Scan) : Scan :=
  if is_z_movement && ltb (add (prev_z st) rise_threshold) (pos_Z pos) then
    if negb (in_retraction st) then
      {| current_pos := current_pos st; prev_z := prev_z st;
         in_retraction := true;
         retraction_start_line := line_number;
         retraction_start_height := pos_Z pos;
         emitted := emitted st |}
    else st
  else st.

(** The second [if]: a rapid move while in a retraction records an event
    and leaves the retraction when Z is below the start height. *)
Definition note_rapid (ls : list string) (line_number : nat) (line : string)
  (is_rapid : bool) (pos : Position) (st : Scan) : option Scan :=
  if in_retraction st && is_rapid then
    start_raw ← PyStr.getitem ls (Z.of_nat (retraction_start_line st) - 1);
    let event :=
      {| r_line_number := retraction_start_line st;
         r_z_height := retraction_start_height st;
         r_line_content := PyStr.strip start_raw;
         r_end_line := line_number;
         r_end_content := line;
         r_grouped := None;
         r_group_size := None |} in
    Some {| current_pos := current_pos st; prev_z := prev_z st;
            in_retraction :=
              if ltb (pos_Z pos) (retraction_start_height st) then false
              else in_retraction st;
            retraction_start_line := retraction_start_line st;
            retraction_start_height := retraction_start_height st;
            emitted := emitted st ++ [event] |}
  else Some st.

(** One round of [for line_number, line in enumerate(self.lines, 1)]. *)
Definition retraction_body (ls : list string) (st : Scan)
  (item : nat * string) : option Scan :=
  let '(line_number, raw) := item in
  let line := PyStr.strip raw in
  if is_skipped line then Some st
  else
    let clean_line := remove_comments line in
    pos ← update_position (current_pos st) clean_line;
    st2 ← note_rapid ls line_number line (is_rapid clean_line) pos
            (note_rise line_number (is_z_movement clean_line) pos st);
    Some {| current_pos := pos; prev_z := pos_Z pos;
            in_retraction := in_retraction st2;
            retraction_start_line := retraction_start_line st2;
            retraction_start_height := retraction_start_height st2;
            emitted := emitted st2 |}.

(** The detection loop, before the grouping pass. *)
Definition scan_lines (ls : list string) : option Scan :=
  PyStr.for_loop (retraction_body ls) (PyStr.enumerate 1 ls) scan_start.

(** *** _group_similar_retractions *)

(** [list.sort(key=...)] compares keys with [<] only and is stable.  It
    is rendered as a stable insertion sort; on keys that [<] orders
    totally (no NaN) every stable sort returns the same list. *)
Section Sort.
Context {A : Type} (key : A -> float).

Fixpoint insert_sorted (x : A) (l : list A) : list A :=
  match l with
  | [] => [x]
  | y :: l' =>
      if ltb (key y) (key x) then y :: insert_sorted x l'
      else x :: y :: l'
  end.

Fixpoint sort_by (l : list A) : list A :=
  match l with
  | [] => []
  | x :: l' => insert_sorted x (sort_by l')
  end.
End Sort.

(** The block that closes a group: the mean height, rounded to three
    decimals, is written into every member together with the flag and
    the size. *)
Definition close_group (current_group : list RetractionEvent)
  : option (list RetractionEvent) :=
  avg_height ← truediv_int (sum (map r_z_height current_group))
                           (length current_group);
  Some (map (fun r =>
               {| r_line_number := r_line_number r;
                  r_z_height := round avg_height 3;
                  r_line_content := r_line_content r;
                  r_end_line := r_end_line r;
                  r_end_content := r_end_content r;
                  r_grouped := Some true;
                  r_group_size := Some (length current_group) |})
            current_group).

(** One round of [for i in range(1, len(self.retractions))]; the state
    is [(grouped_retractions, current_group)]. *)
Definition group_body (st : list RetractionEvent * list RetractionEvent)
  (current : RetractionEvent)
  : option (list RetractionEvent * list RetractionEvent) :=
  let '(grouped_retractions, current_group) := st in
  prev ← last current_group;
  if ltb (abs (sub (r_z_height current) (r_z_height prev))) height_tolerance
  then Some (grouped_retractions, current_group ++ [current])
  else
    closed ← close_group current_group;
    Some (grouped_retractions ++ closed, [current]).

Definition _group_similar_retractions (rs : list RetractionEvent)
  : option (list RetractionEvent) :=
  match rs with
  | [] => Some []
  | _ =>
      match sort_by r_z_height rs with
      | [] => None
      | first :: others =>
          '(grouped_retractions, current_group) ←
            PyStr.for_loop group_body others ([], [first]);
          match current_group with
          | [] => Some grouped_retractions
          | _ =>
              closed ← close_group current_group;
              Some (grouped_retractions ++ closed)
          end
      end
  end.

Definition detect_retractions (ls : list string)
  : option (list RetractionEvent) :=
  st ← scan_lines ls;
  _group_similar_retractions (emitted st).

(** *** parse and the accessors *)

Definition parse (p : GCodeParser) : option GCodeParser :=
  let tcs := detect_tool_changes (lines p) in
  rs ← detect_retractions (lines p);
  Some {| lines := lines p; tool_changes := tcs; retractions := rs |}.

Definition get_tool_changes (p : GCodeParser) : list ToolChangeEvent :=
  tool_changes p.

Definition get_retractions (p : GCodeParser) : list RetractionEvent :=
  retractions p.

(** [GCodeParser(content=...)] followed by nothing else: the lines are
    loaded and both result lists are empty. *)
Definition loaded (ls : list string) : GCodeParser :=
  {| lines := ls; tool_changes := []; retractions := [] |}.

(** *** summarize *)

Definition nl : string := String "010" EmptyString.

(** [height_groups]: a dictionary keyed by height, in insertion order.
    [add_to_group] is the body of the loop that fills it.  Keys are
    compared with [==], so 0.0 and -0.0 share a bucket and a NaN, which
    equals nothing, opens a bucket of its own. *)
Fixpoint add_to_group (height : float) (r : RetractionEvent)
  (height_groups : list (float * list RetractionEvent))
  : list (float * list RetractionEvent) :=
  match height_groups with
  | [] => [(height, [r])]
  | (k, members) :: others =>
      if eqb k height then (k, members ++ [r]) :: others
      else (k, members) :: add_to_group height r others
  end.

Definition group_by_height (rs : list RetractionEvent)
  : list (float * list RetractionEvent) :=
  fold_left (fun groups r => add_to_group (r_z_height r) r groups) rs [].

(** [max(items, key=lambda x: len(x[1]))] started from a first item: a
    later item replaces the best one only when it is strictly larger. *)
Fixpoint largest_from {K A} (best : K * list A) (items : list (K * list A))
  : K * list A :=
  match items with
  | [] => best
  | item :: items' =>
      if (length (snd best) <? length (snd item))%nat
      then largest_from item items'
      else largest_from best items'
  end.

(** [a / b] on two non-negative integers; [None] is ZeroDivisionError. *)
Definition int_truediv (a b : nat) : option float :=
  match b with
  | O => None
  | S _ => Some (of_ratio false (N.of_nat a) (Pos.of_nat b))
  end.

(** [f"{tool}"] for a value that is a string or [None]. *)
Definition show_tool (t : option string) : string := default "None" t.

Definition tool_change_line (tc : ToolChangeEvent) : string :=
  "Line " +:+ pretty (tc_line_number tc) +:+ ": Tool T"
  +:+ show_tool (tc_tool_number tc) +:+ " - " +:+ tc_line_content tc.

(** The lines reported for one height of the sorted dictionary. *)
Definition height_lines (item : float * list RetractionEvent)
  : option (list string) :=
  let '(height, members) := item in
  first ← head members;
  Some (("Z Height: " +:+ format_fixed height 3 +:+ " (first on line "
         +:+ pretty (r_line_number first) +:+ ")")
        :: (if (1 <? length members)%nat
            then ["  Found in " +:+ pretty (length members) +:+ " movements"]
            else [])).

Fixpoint all_height_lines (items : list (float * list RetractionEvent))
  : option (list string) :=
  match items with
  | [] => Some []
  | item :: items' =>
      here ← height_lines item;
      there ← all_height_lines items';
      Some (here ++ there)
  end.

(** The three lines about the primary retraction height. *)
Definition primary_lines (rs : list RetractionEvent)
  (height_groups : list (float * list RetractionEvent))
  : option (list string) :=
  match height_groups with
  | [] => Some []
  | first :: others =>
      let largest_group := largest_from first others in
      share ← int_truediv (length (snd largest_group)) (length rs);
      Some [nl +:+ "Primary Retraction Height: "
              +:+ format_fixed (fst largest_group) 3;
            "  Used in " +:+ pretty (length (snd largest_group))
              +:+ " out of " +:+ pretty (length rs) +:+ " retractions";
            "  (" +:+ format_fixed (mul share (of_nat 100)) 1
              +:+ "% of all retractions)"]
  end.

Definition retraction_lines (rs : list RetractionEvent)
  : option (list string) :=
  match rs with
  | [] => Some ["No retractions detected."]
  | _ =>
      let height_groups := group_by_height rs in
      per_height ← all_height_lines (sort_by fst height_groups);
      primary ← primary_lines rs height_groups;
      Some (per_height ++ primary)
  end.

(** The list [summary] that [summarize] builds. *)
Definition summary_lines (p : GCodeParser) : option (list string) :=
  let tools :=
    match tool_changes p with
    | [] => ["No tool changes detected."]
    | tcs => map tool_change_line tcs
    end in
  heights ← retraction_lines (retractions p);
  Some (["=== G-code Analysis Summary ==="; nl +:+ "Tool Changes:"]
        ++ tools ++ [nl +:+ "Retraction Heights:"] ++ heights).

Definition summarize (p : GCodeParser) : option string :=
  PyStr.join nl <$> summary_lines p.

(** ** class GCodeParserApp *)

Record GCodeParserApp := { gcode_parser : option GCodeParser }.

(** A path point [[x, y, z]]. *)
Definition point (p : Position) : list float := [pos_X p; pos_Y p; pos_Z p].

(** The local variables of [extract_tool_paths]. *)
Record PathWalk := {
  tool_paths : gmap string (list (list float));
  current_tool : option string;
  current_path : list (list float);
  walk_pos : Position;
  tc_idx : nat
}.

(** [tool_paths.setdefault(tool, []).extend(path)], done when a tool is
    selected and the path is not empty. *)
Definition flush_path (tool : option string) (path : list (list float))
  (paths : gmap string (list (list float)))
  : gmap string (list (list float)) :=
  match tool, path with
  | Some t, _ :: _ => <[t := default [] (paths !! t) ++ path]> paths
  | _, _ => paths
  end.

(** [for axis in 'XYZ']: the first number that follows the axis letter in
    the line, if there is one. *)
Definition read_axis (line : string) (axis : ascii) (p : Position)
  : option Position :=
  match Re.search (Pat.axis_pattern axis) line with
  | Some m =>
      text ← Re.group1 m;
      value ← of_string text;
      Some (set_axis axis value p)
  | None => Some p
  end.

Definition read_axes (line : string) (p : Position) : option Position :=
  p1 ← read_axis line "X" p;
  p2 ← read_axis line "Y" p1;
  read_axis line "Z" p2.

(** One round of [for i, line in enumerate(lines)]. *)
Definition path_body (tcs : list ToolChangeEvent) (st : PathWalk)
  (item : nat * string) : option PathWalk :=
  let '(i, raw) := item in
  let line := PyStr.strip raw in
  if is_skipped line then Some st
  else
    let st1 :=
      match tcs !! tc_idx st with
      | Some tc =>
          if (i + 1 =? tc_line_number tc)%nat then
            {| tool_paths :=
                 flush_path (current_tool st) (current_path st) (tool_paths st);
               current_tool := tc_tool_number tc;
               current_path := [];
               walk_pos := walk_pos st;
               tc_idx := tc_idx st + 1 |}
          else st
      | None => st
      end in
    pos ← read_axes line (walk_pos st1);
    Some {| tool_paths := tool_paths st1;
            current_tool := current_tool st1;
            current_path := current_path st1 ++ [point pos];
            walk_pos := pos;
            tc_idx := tc_idx st1 |}.

Definition extract_tool_paths (app : GCodeParserApp)
  : option (gmap string (list (list float))) :=
  match gcode_parser app with
  | None => Some ∅
  | Some parser =>
      st ← PyStr.for_loop (path_body (get_tool_changes parser))
             (PyStr.enumerate 0 (lines parser))
             {| tool_paths := ∅; current_tool := None; current_path := [];
                walk_pos := origin; tc_idx := 0 |};
      Some (flush_path (current_tool st) (current_path st) (tool_paths st))
  end.

(** *** extract_rapid_segments *)

(** The local variables of [extract_rapid_segments]; a segment is the
    pair of its two end points. *)
Record RapidWalk := {
  rapid_segments : gmap string (list (list float * list float));
  seg_tool : option string;
  seg_tc_idx : nat;
  seg_pos : Position;
  prev_pos : option Position
}.

(** [rapid_segments.setdefault(tool, []).append(seg)], done when a
    previous position exists and a tool is selected. *)
Definition add_segment (tool : option string) (before : option Position)
  (after : Position) (segs : gmap string (list (list float * list float)))
  : gmap string (list (list float * list float)) :=
  match before, tool with
  | Some b, Some t =>
      <[t := default [] (segs !! t) ++ [(point b, point after)]]> segs
  | _, _ => segs
  end.

(** One round of the loop of [extract_rapid_segments]. *)
Definition rapid_body (tcs : list ToolChangeEvent) (st : RapidWalk)
  (item : nat * string) : option RapidWalk :=
  let '(i, raw) := item in
  let line := PyStr.strip raw in
  if is_skipped line then Some st
  else
    let '(tool, idx) :=
      match tcs !! seg_tc_idx st with
      | Some tc =>
          if (i + 1 =? tc_line_number tc)%nat
          then (tc_tool_number tc, seg_tc_idx st + 1)
          else (seg_tool st, seg_tc_idx st)
      | None => (seg_tool st, seg_tc_idx st)
      end in
    pos ← read_axes line (seg_pos st);
    Some {| rapid_segments :=
              if bool_decide (is_Some (Re.match_ Pat.rapid_prefix line))
              then add_segment tool (prev_pos st) pos (rapid_segments st)
              else rapid_segments st;
            seg_tool := tool;
            seg_tc_idx := idx;
            seg_pos := pos;
            prev_pos := Some pos |}.

Definition extract_rapid_segments (app : GCodeParserApp)
  : option (gmap string (list (list float * list float))) :=
  match gcode_parser app with
  | None => Some ∅
  | Some parser =>
      st ← PyStr.for_loop (rapid_body (get_tool_changes parser))
             (PyStr.enumerate 0 (lines parser))
             {| rapid_segments := ∅; seg_tool := None; seg_tc_idx := 0;
                seg_pos := origin; prev_pos := None |};
      Some (rapid_segments st)
  end.

(** ** Inputs used in the examples *)

Definition fl (n : N) (k : nat) : float := of_decimal false n k.

Definition two_tools : list string :=
  ["T1"; "G1 X1 Y1 Z1"; "T2"; "G1 X2 Y2 Z2"].

(** The application object after [parse_gcode] has run on [ls]. *)
Definition app_after_parse (ls : list string) : option GCodeParserApp :=
  p ← parse (loaded ls); Some {| gcode_parser := Some p |}.


Definition plateau_program : list string :=
  ["G1 Z5"; "G0 X1"; "G0 X2"; "G0 X3"].

(** The detector after the first line of [plateau_program]. *)
Definition lifted_at_5 : Scan :=
  {| current_pos := {| pos_X := fl 0 0; pos_Y := fl 0 0; pos_Z := fl 5 0 |};
     prev_z := fl 5 0; in_retraction := true; retraction_start_line := 1;
     retraction_start_height := fl 5 0; emitted := [] |}.

(** A lift by a feed move followed by the feed move [G01]. *)
Definition lift_then_feed : list string := ["G1 Z5"; "G01 X10"].

(** A command whose trailing comment mentions an axis, and a command
    that names an axis twice. *)
Definition axis_in_comment : list string := ["T1"; "G1 X1 ; then Z5"].
Definition axis_twice : list string := ["T1"; "G1 X1 X2"].
Definition rapid_axis_in_comment : list string := ["T1"; "G0 X1 ; then Z5"].

(** Five events at height 1.0 and two at height 2.0. *)
Definition five_and_two : list string :=
  ["G1 Z1.0"; "G0 X1"; "G0 X2"; "G0 X3"; "G0 X4"; "G0 Z0";
   "G1 Z2.0"; "G0 X1"; "G0 Z0"].

(** ** Notions of the specification *)

(** The comment-free command text of a raw line. *)
Definition command_text (raw : string) : string :=
  remove_comments (PyStr.strip raw).

(** The event recorded at line [n] for a retraction that started at
    line [start] with height [h]. *)
Definition event_at (start : nat) (h : float) (start_raw : string)
  (item : nat * string) : RetractionEvent :=
  {| r_line_number := start; r_z_height := h;
     r_line_content := PyStr.strip start_raw;
     r_end_line := fst item; r_end_content := PyStr.strip (snd item);
     r_grouped := None; r_group_size := None |}.

(** Lines of a plateau at height [h], read from position [pos]: each is a
    command line classified as rapid, and none takes Z below [h]. *)
Fixpoint on_plateau (h : float) (pos : Position) (raws : list string) : bool :=
  match raws with
  | [] => true
  | raw :: raws' =>
      negb (is_skipped (PyStr.strip raw)) && is_rapid (command_text raw)
      && match update_position pos (command_text raw) with
         | Some pos' => negb (ltb (pos_Z pos') h) && on_plateau h pos' raws'
         | None => false
         end
  end.

(** The heights 5.00, 5.05, 5.12 and 8.00, each detected once: a feed
    move up to the height, then a rapid move back to Z 0. *)
Definition four_heights : list string :=
  ["G1 Z5.00"; "G0 Z0"; "G1 Z5.05"; "G0 Z0";
   "G1 Z5.12"; "G0 Z0"; "G1 Z8.00"; "G0 Z0"].

(** The events the detection loop records on [four_heights]. *)
Definition four_events : list RetractionEvent :=
  [event_at 1 (fl 500 2) "G1 Z5.00" (2, "G0 Z0");
   event_at 3 (fl 505 2) "G1 Z5.05" (4, "G0 Z0");
   event_at 5 (fl 512 2) "G1 Z5.12" (6, "G0 Z0");
   event_at 7 (fl 800 2) "G1 Z8.00" (8, "G0 Z0")].

(** An event after grouping. *)
Definition grouped_event (start : nat) (h : float) (start_raw : string)
  (item : nat * string) (size : nat) : RetractionEvent :=
  {| r_line_number := start; r_z_height := h;
     r_line_content := PyStr.strip start_raw;
     r_end_line := fst item; r_end_content := PyStr.strip (snd item);
     r_grouped := Some true; r_group_size := Some size |}.



(** *** Clusters of heights, in the words of the specification *)

(** [b] is within the tolerance 0.1 of [a]. *)
Definition within_tolerance (a b : RetractionEvent) : bool :=
  ltb (abs (sub (r_z_height b) (r_z_height a))) height_tolerance.

(** The clusters of a sequence: [cluster ++ [latest]] is the current
    cluster; the next event joins it when it is within the tolerance of
    [latest], the member added last, and starts a new cluster otherwise. *)
Fixpoint chain_from (cluster : list RetractionEvent) (latest : RetractionEvent)
  (l : list RetractionEvent) : list (list RetractionEvent) :=
  match l with
  | [] => [cluster ++ [latest]]
  | x :: l' =>
      if within_tolerance latest x then chain_from (cluster ++ [latest]) x l'
      else (cluster ++ [latest]) :: chain_from [] x l'
  end.

Definition chain_clusters (l : list RetractionEvent)
  : list (list RetractionEvent) :=
  match l with
  | [] => []
  | x :: l' => chain_from [] x l'
  end.

(** The mean height of a cluster. *)
Definition mean_height (g : list RetractionEvent) : float :=
  SFdiv prec emax (sum (map r_z_height g)) (of_nat (length g)).

(** A closed cluster: every member carries the mean height rounded to
    three decimals, the flag and the size of the cluster. *)
Definition stamp_cluster (g : list RetractionEvent) : list RetractionEvent :=
  map (fun r =>
         {| r_line_number := r_line_number r;
            r_z_height := round (mean_height g) 3;
            r_line_content := r_line_content r;
            r_end_line := r_end_line r;
            r_end_content := r_end_content r;
            r_grouped := Some true;
            r_group_size := Some (length g) |}) g.

(** What [_group_similar_retractions] does after its loop: the last
    group is closed. *)
Definition finish_groups (st : list RetractionEvent * list RetractionEvent)
  : option (list RetractionEvent) :=
  match st.2 with
  | [] => Some st.1
  | _ => closed ← close_group st.2; Some (st.1 ++ closed)
  end.

(** Every member of [c] but the first is within the tolerance of the
    member before it. *)
Fixpoint chained (c : list RetractionEvent) : Prop :=
  match c with
  | a :: (b :: _) as c' => within_tolerance a b = true /\ chained c'
  | _ => True
  end.

(** Consecutive clusters are apart: the first member of a cluster is not
    within the tolerance of the last member of the cluster before it. *)
Fixpoint apart (cs : list (list RetractionEvent)) : Prop :=
  match cs with
  | c :: (d :: _) as cs' =>
      (exists a b, last c = Some a /\ head d = Some b
                   /\ within_tolerance a b = false)
      /\ apart cs'
  | _ => True
  end.

(** Ascending order of the keys: no element is followed by one with a
    smaller key. *)
Definition ascending {A} (key : A -> float) (l : list A) : Prop :=
  StronglySorted (fun a b => ltb (key b) (key a) = false) l.

(** An event is well recorded against the first [k] lines of the file:
    its start line is not after its end line, both are lines among the
    first [k], and the two contents are those lines, stripped. *)
Definition recorded (ls : list string) (k : nat) (r : RetractionEvent) : Prop :=
  1 <= r_line_number r <= r_end_line r /\ r_end_line r <= k
  /\ (exists raw, ls !! (r_line_number r - 1) = Some raw
                  /\ r_line_content r = PyStr.strip raw)
  /\ (exists raw, ls !! (r_end_line r - 1) = Some raw
                  /\ r_end_content r = PyStr.strip raw).

(** The invariant of the detection loop after [k] lines. *)
Definition scan_ok (ls : list string) (k : nat) (st : Scan) : Prop :=
  (in_retraction st = true ->
   1 <= retraction_start_line st <= k)
  /\ Forall (recorded ls k) (emitted st).

(** The fields of an event that the grouping pass leaves alone. *)
Definition detection_data (r : RetractionEvent)
  : nat * nat * string * string :=
  (r_line_number r, r_end_line r, r_line_content r, r_end_content r).

(** A text made of decimal digits only. *)
Fixpoint all_digits (s : string) : bool :=
  match s with
  | EmptyString => true
  | String c s' => PyStr.is_digit c && all_digits s'
  end.

(** A pattern whose every match sets group 1 to a non-empty run of
    digits. *)
Definition captures_digits (r : Re.regex) : Prop :=
  forall s h, In h (Re.run r s) ->
              exists w, Re.group1 h = Some w /\ w <> "" /\ all_digits w = true.

(** *** The order of floats

    [rank] places the floats that are not NaN on a line: the comparison
    of [SpecFloat] is the lexicographic order of the ranks. *)
Definition rank (x : float) : Z * Z * Z :=
  match x with
  | S754_infinity true => (-2, 0, 0)
  | S754_finite true m e => (-1, - e, - Z.pos m)
  | S754_zero _ => (0, 0, 0)
  | S754_finite false m e => (1, e, Z.pos m)
  | S754_infinity false => (2, 0, 0)
  | S754_nan => (3, 0, 0)
  end%Z.

Definition lex_lt (a b : Z * Z * Z) : Prop :=
  (a.1.1 < b.1.1
   \/ (a.1.1 = b.1.1 /\ (a.1.2 < b.1.2 \/ (a.1.2 = b.1.2 /\ a.2 < b.2))))%Z.

Definition is_nan (x : float) : bool :=
  match x with S754_nan => true | _ => false end.

(** ** Further notions *)

(** Every character of [s] passes the test [p]. *)
Fixpoint all_chars (p : ascii -> bool) (s : string) : bool :=
  match s with
  | EmptyString => true
  | String c s' => p c && all_chars p s'
  end.

Definition not_char (c : ascii) (d : ascii) : bool := negb (Ascii.eqb c d).

(** The text before the first semicolon. *)
Fixpoint before_semicolon (s : string) : string :=
  match s with
  | EmptyString => EmptyString
  | String c s' => if Ascii.eqb ";" c then EmptyString
                   else String c (before_semicolon s')
  end.

(** A tool-change event sits in the file: its line exists, is a command
    line, and its content is that line, stripped. *)
Definition tool_change_in_file (ls : list string) (ev : ToolChangeEvent)
  : Prop :=
  1 <= tc_line_number ev <= length ls
  /\ exists raw, ls !! (tc_line_number ev - 1) = Some raw
                 /\ is_skipped (PyStr.strip raw) = false
                 /\ tc_line_content ev = PyStr.strip raw.

(** The coordinate of a position along an axis letter. *)
Definition axis_value (axis : ascii) (p : Position) : float :=
  if Ascii.eqb axis "X" then pos_X p
  else if Ascii.eqb axis "Y" then pos_Y p
  else pos_Z p.

(** The character is not the axis letter, in either case. *)
Definition not_axis (axis : ascii) (c : ascii) : bool :=
  negb (Ascii.eqb (PyStr.upper c) axis).

(** A line the detector cannot end a retraction on: a comment or empty
    line, or a command that is not classified as rapid. *)
Definition not_rapid_line (raw : string) : bool :=
  is_skipped (PyStr.strip raw) || negb (is_rapid (command_text raw)).

(** A line the detector cannot start a retraction on. *)
Definition no_z_command (raw : string) : bool :=
  is_skipped (PyStr.strip raw) || negb (is_z_movement (command_text raw)).

(** Line [n] of the file (counted from 1) is a command line whose
    comment-free text passes the test [f]. *)
Definition command_at (ls : list string) (n : nat) (f : string -> bool)
  : Prop :=
  1 <= n
  /\ exists raw, ls !! (n - 1) = Some raw
                 /\ is_skipped (PyStr.strip raw) = false
                 /\ f (command_text raw) = true.

(** An event is justified by the file: it starts on a command with a
    Z-axis command and ends on a command classified as rapid. *)
Definition justified (ls : list string) (r : RetractionEvent) : Prop :=
  command_at ls (r_line_number r) is_z_movement
  /\ command_at ls (r_end_line r) is_rapid.

(** The invariant of the detection loop behind [justified]. *)
Definition lifted_justified (ls : list string) (st : Scan) : Prop :=
  (in_retraction st = true ->
   command_at ls (retraction_start_line st) is_z_movement)
  /\ Forall (justified ls) (emitted st).

(** *** update_retractions_display *)

(** The cell values of one row of the retraction table: line number,
    height with the group note, line content, end line. *)
Definition retraction_row (r : RetractionEvent)
  : nat * string * string * nat :=
  let group_info :=
    if default false (r_grouped r)
    then " (Group of " +:+ pretty (default 1 (r_group_size r)) +:+ ")"
    else "" in
  (r_line_number r, format_fixed (r_z_height r) 3 +:+ group_info,
   r_line_content r, r_end_line r).

(** [heights[h] += 1], after [heights[h] = 0] for a new key. *)
Fixpoint add_count (h : float) (heights : list (float * nat))
  : list (float * nat) :=
  match heights with
  | [] => [(h, 1)]
  | (k, n) :: others =>
      if eqb k h then (k, n + 1) :: others
      else (k, n) :: add_count h others
  end.

Definition count_heights (rs : list RetractionEvent) : list (float * nat) :=
  fold_left (fun heights r => add_count (r_z_height r) heights) rs [].

(** [max(items, key=lambda x: x[1])] started from a first item. *)
Fixpoint most_from {K} (best : K * nat) (items : list (K * nat)) : K * nat :=
  match items with
  | [] => best
  | item :: items' =>
      if (snd best <? snd item)%nat then most_from item items'
      else most_from best items'
  end.

(** The height and count shown in the SUMMARY row, when there is one. *)
Definition most_common (rs : list RetractionEvent) : option (float * nat) :=
  match rs with
  | [] => None
  | _ =>
      match count_heights rs with
      | [] => None
      | first :: others => Some (most_from first others)
      end
  end.

(** The SUMMARY row put at the top of the retraction table, when there
    are retractions. *)
Definition summary_row (rs : list RetractionEvent)
  : option (string * string * string * string) :=
  (fun most_common : float * nat =>
     ("SUMMARY", "Most common: " +:+ format_fixed most_common.1 3,
      "Found " +:+ pretty most_common.2 +:+ " occurrences", "---"))
  <$> most_common rs.

(** The bucket that [summarize] reports as primary. *)
Definition primary_group (rs : list RetractionEvent)
  : option (float * list RetractionEvent) :=
  match group_by_height rs with
  | [] => None
  | first :: others => Some (largest_from first others)
  end.

(** A bucket of the height dictionary is keyed by the height of its
    first member, and the other members have a height equal to the key. *)
Definition bucket_ok (g : float * list RetractionEvent) : Prop :=
  exists first others,
    g.2 = first :: others
    /\ g.1 = r_z_height first
    /\ Forall (fun r => eqb g.1 (r_z_height r) = true) others.

(** No key of the dictionary equals a key that comes after it. *)
Fixpoint distinct_keys {A} (groups : list (float * A)) : Prop :=
  match groups with
  | [] => True
  | g :: others =>
      Forall (fun g' => eqb g.1 g'.1 = false) others /\ distinct_keys others
  end.

(** A block of returned events that form one group: all its members are
    flagged, carry the size of the block and share one height. *)
Definition group_block (b : list RetractionEvent) : Prop :=
  b <> []
  /\ exists h, Forall (fun r => r_grouped r = Some true
                               /\ r_group_size r = Some (length b)
                               /\ r_z_height r = h
                               /\ (retraction_row r).1.1.2
                                  = format_fixed h 3 +:+ " (Group of "
                                    +:+ pretty (length b) +:+ ")") b.

(** The tool is the tool number of one of the tool changes. *)
Definition tool_of (tcs : list ToolChangeEvent) (t : string) : Prop :=
  exists tc, In tc tcs /\ tc_tool_number tc = Some t.

(** The line starts with the word G0 or G00, in either case: the test
    of [extract_rapid_segments]. *)
Definition starts_rapid (raw : string) : bool :=
  bool_decide (is_Some (Re.match_ Pat.rapid_prefix (PyStr.strip raw))).

(** The invariant of the path walk against the tool changes [seen] so
    far: the index counts them, a selected tool has a non-empty current
    path, and the tools with a stored path or selected now are the tools
    of [seen]. *)
Definition walk_ok (seen : list ToolChangeEvent) (st : PathWalk) : Prop :=
  tc_idx st = length seen
  /\ (forall t, current_tool st = Some t -> current_path st <> [])
  /\ (forall t, is_Some (tool_paths st !! t) \/ current_tool st = Some t
                <-> tool_of seen t)
  /\ (forall t path, tool_paths st !! t = Some path -> path <> []).

(** *** _tool_for_line *)

(** The loop of [_tool_for_line]: a tool change at or before the line
    becomes the current tool, the first later one ends the loop. *)
Fixpoint tool_for_line_from (current_tool : option string)
  (tcs : list ToolChangeEvent) (line_number : nat) : option string :=
  match tcs with
  | [] => current_tool
  | tc :: tcs' =>
      if (tc_line_number tc <=? line_number)%nat
      then tool_for_line_from (tc_tool_number tc) tcs' line_number
      else current_tool
  end.

(** [_tool_for_line(line_number)]; the outer [None] is the
    AttributeError raised when no parser is set. *)
Definition _tool_for_line (app : GCodeParserApp) (line_number : nat)
  : option (option string) :=
  parser ← gcode_parser app;
  Some (tool_for_line_from None (get_tool_changes parser) line_number).

(** *** Loading from a string *)

(** The characters below 256 at which [str.splitlines] breaks a line:
    LF, VT, FF, CR, FS, GS, RS and NEL. *)
Definition is_break (c : ascii) : bool :=
  let n := nat_of_ascii c in
  (((10 <=? n) && (n <=? 13)) || ((28 <=? n) && (n <=? 30)) || (n =? 133))%nat.

(** [s.splitlines()], with [cur] the line being read; CR LF counts as
    one break, and a break at the very end opens no further line. *)
Fixpoint splitlines_from (cur : string) (s : string) : list string :=
  match s with
  | EmptyString => if PyStr.is_empty cur then [] else [cur]
  | String c s' =>
      if is_break c then
        match s' with
        | String d s'' =>
            if Ascii.eqb c "013" && Ascii.eqb d "010"
            then cur :: splitlines_from EmptyString s''
            else cur :: splitlines_from EmptyString s'
        | EmptyString => [cur]
        end
      else splitlines_from (cur +:+ String c EmptyString) s'
  end.

Definition splitlines (s : string) : list string :=
  splitlines_from EmptyString s.

(** [GCodeParser(content=content)]: an empty content loads nothing. *)
Definition new_from_content (content : string) : GCodeParser :=
  {| lines := if PyStr.is_empty content then [] else splitlines content;
     tool_changes := []; retractions := [] |}.

Definition not_break (c : ascii) : bool := negb (is_break c).

(** The event with its line number moved down by [k] lines. *)
Definition renumber (k : nat) (ev : ToolChangeEvent) : ToolChangeEvent :=
  {| tc_line_number := k + tc_line_number ev;
     tc_tool_number := tc_tool_number ev;
     tc_line_content := tc_line_content ev |}.

(** The tool change that governs a line: the last one at or before it. *)
Definition governing (tcs : list ToolChangeEvent) (line_number : nat)
  : option ToolChangeEvent :=
  last (filter (fun tc => tc_line_number tc <= line_number) tcs).

(** A line that [extract_rapid_segments] records nothing on. *)
Definition no_rapid_word (raw : string) : bool :=
  is_skipped (PyStr.strip raw) || negb (starts_rapid raw).

(** * Properties *)

(** ** Path extraction on the two-tool program *)

Lemma two_tools_changes :
  detect_tool_changes two_tools =
    [ {| tc_line_number := 1; tc_tool_number := Some "1"; tc_line_content := "T1" |};
      {| tc_line_number := 3; tc_tool_number := Some "2"; tc_line_content := "T2" |} ].
Proof. vm_compute. reflexivity. Qed.

(** C1, as stated, fails: the path of tool "1" is not [[1,1,1]] alone. *)
Lemma two_tools_paths_not_single_points :
  ~ (exists app m,
        app_after_parse two_tools = Some app /\
        extract_tool_paths app = Some m /\
        m !! "1" = Some [[fl 1 0; fl 1 0; fl 1 0]] /\
        m !! "2" = Some [[fl 2 0; fl 2 0; fl 2 0]]).
Proof.
  intros (app & m & Happ & Hm & H1 & _).
  vm_compute in Happ. injection Happ as <-.
  vm_compute in Hm. injection Hm as <-.
  vm_compute in H1. discriminate H1.
Qed.

(** C1, amended: the line that selects a tool also records a point, the
    position current at that line, so tool "1" gets [[0,0,0],[1,1,1]] and
    tool "2" gets [[1,1,1],[2,2,2]]. *)
Theorem two_tools_paths :
  (app_after_parse two_tools ≫= extract_tool_paths) =
    Some {[ "1" := [[fl 0 0; fl 0 0; fl 0 0]; [fl 1 0; fl 1 0; fl 1 0]];
            "2" := [[fl 1 0; fl 1 0; fl 1 0]; [fl 2 0; fl 2 0; fl 2 0]] ]}.
Proof. vm_compute. reflexivity. Qed.

(** ** Tool-change detection *)

Lemma first_match_split (before after : list Re.regex) (p : Re.regex)
  (s : string) (m : Re.hit) :
  Forall (fun q => Re.search q s = None) before ->
  Re.search p s = Some m ->
  first_match (before ++ p :: after) s = Some (Re.group1 m).
Proof.
  intros Hnone Hp. induction Hnone as [|q qs Hq _ IH]; simpl.
  - now rewrite Hp.
  - now rewrite Hq.
Qed.

Lemma first_match_none (ps : list Re.regex) (s : string) :
  Forall (fun q => Re.search q s = None) ps -> first_match ps s = None.
Proof.
  induction 1 as [|q qs Hq _ IH]; simpl; [reflexivity | now rewrite Hq].
Qed.

Lemma tool_change_body_app (found : list ToolChangeEvent) (item : nat * string) :
  tool_change_body found item = found ++ tool_change_body [] item.
Proof.
  destruct item as [n raw]. unfold tool_change_body.
  destruct (is_skipped _); [now rewrite app_nil_r|].
  destruct (first_match _ _); [reflexivity | now rewrite app_nil_r].
Qed.

Lemma fold_tool_change_body (items : list (nat * string))
  (found : list ToolChangeEvent) :
  fold_left tool_change_body items found
  = found ++ flat_map (tool_change_body []) items.
Proof.
  revert found. induction items as [|item items IH]; intros found; simpl.
  - now rewrite app_nil_r.
  - rewrite IH, (tool_change_body_app found), app_assoc. reflexivity.
Qed.

Lemma detect_tool_changes_flat (ls : list string) :
  detect_tool_changes ls
  = flat_map (tool_change_body []) (PyStr.enumerate 1 ls).
Proof. unfold detect_tool_changes. now rewrite fold_tool_change_body. Qed.

(** What one line contributes: nothing, or one event that carries its
    number. *)
Lemma tool_change_body_cases (n : nat) (raw : string) :
  tool_change_body [] (n, raw) = []
  \/ exists t, tool_change_body [] (n, raw)
               = [{| tc_line_number := n; tc_tool_number := t;
                     tc_line_content := PyStr.strip raw |}].
Proof.
  unfold tool_change_body.
  destruct (is_skipped _); [now left|].
  destruct (first_match _ _) as [t|]; [right; now exists t | now left].
Qed.

Lemma filter_line_body (k n : nat) (raw : string) :
  filter (fun ev => tc_line_number ev = k) (tool_change_body [] (n, raw))
  = if decide (n = k) then tool_change_body [] (n, raw) else [].
Proof.
  destruct (tool_change_body_cases n raw) as [-> | [t ->]].
  - now destruct (decide _).
  - rewrite filter_cons, filter_nil. simpl. reflexivity.
Qed.

Lemma filter_line_enumerate (ls : list string) (start k : nat) :
  filter (fun ev => tc_line_number ev = k)
         (flat_map (tool_change_body []) (PyStr.enumerate start ls))
  = match (if decide (start <= k) then ls !! (k - start) else None) with
    | Some raw => tool_change_body [] (k, raw)
    | None => []
    end.
Proof.
  revert start.
  induction ls as [|raw ls IH]; intros start; cbn [flat_map PyStr.enumerate].
  - now destruct (decide _).
  - rewrite filter_app, filter_line_body, IH.
    destruct (decide (start = k)) as [->|Hne].
    + rewrite Nat.sub_diag. simpl.
      destruct (decide (k <= k)); [|lia].
      destruct (decide (S k <= k)); [lia|]. now rewrite app_nil_r.
    + simpl. destruct (decide (S start <= k)), (decide (start <= k));
        try lia; try reflexivity.
      replace (k - start) with (S (k - S start)) by lia. reflexivity.
Qed.

Lemma events_of_line (ls : list string) (n : nat) (raw : string) :
  ls !! n = Some raw ->
  filter (fun ev => tc_line_number ev = S n) (detect_tool_changes ls)
  = tool_change_body [] (S n, raw).
Proof.
  intros Hraw. rewrite detect_tool_changes_flat, filter_line_enumerate.
  destruct (decide (1 <= S n)); [|lia].
  replace (S n - 1) with n by lia. now rewrite Hraw.
Qed.

Lemma at_most_one_event_per_line (ls : list string) (k : nat) :
  length (filter (fun ev => tc_line_number ev = k) (detect_tool_changes ls)) <= 1.
Proof.
  rewrite detect_tool_changes_flat, filter_line_enumerate.
  destruct (if decide (1 <= k) then _ else _) as [raw|]; [|simpl; lia].
  destruct (tool_change_body_cases k raw) as [-> | [t ->]]; simpl; lia.
Qed.

(** ** The retraction detector, line by line *)

Ltac scan_fields :=
  cbn [current_pos prev_z in_retraction retraction_start_line
       retraction_start_height emitted] in *.


Lemma retraction_body_skip (ls : list string) (st : Scan) (n : nat)
  (raw : string) :
  is_skipped (PyStr.strip raw) = true ->
  retraction_body ls st (n, raw) = Some st.
Proof. intros H. unfold retraction_body. now rewrite H. Qed.

(** The shape of a round on a command line. *)
Lemma retraction_body_command (ls : list string) (st st' : Scan) (n : nat)
  (raw : string) :
  is_skipped (PyStr.strip raw) = false ->
  retraction_body ls st (n, raw) = Some st' ->
  exists pos st2,
    update_position (current_pos st) (command_text raw) = Some pos
    /\ note_rapid ls n (PyStr.strip raw) (is_rapid (command_text raw)) pos
         (note_rise n (is_z_movement (command_text raw)) pos st) = Some st2
    /\ st' = {| current_pos := pos; prev_z := pos_Z pos;
                in_retraction := in_retraction st2;
                retraction_start_line := retraction_start_line st2;
                retraction_start_height := retraction_start_height st2;
                emitted := emitted st2 |}.
Proof.
  intros Hskip H. unfold retraction_body in H. rewrite Hskip in H.
  fold (command_text raw) in H.
  destruct (update_position _ _) as [pos|] eqn:Hpos; [|discriminate].
  cbn [mbind option_bind] in H.
  destruct (note_rapid _ _ _ _ _ _) as [st2|] eqn:Hst2; [|discriminate].
  cbn [mbind option_bind] in H. injection H as <-.
  exists pos, st2. auto.
Qed.


Lemma note_rise_lifted (n : nat) (z : bool) (pos : Position) (st : Scan) :
  in_retraction st = true -> note_rise n z pos st = st.
Proof.
  intros H. unfold note_rise. rewrite H. now destruct (_ && _).
Qed.

(** A round on a command line while LIFTED. *)
Lemma lifted_round (ls : list string) (st st' : Scan) (n : nat) (raw : string) :
  retraction_body ls st (n, raw) = Some st' ->
  in_retraction st = true ->
  is_skipped (PyStr.strip raw) = false ->
  retraction_start_line st' = retraction_start_line st
  /\ retraction_start_height st' = retraction_start_height st
  /\ (if is_rapid (command_text raw) then
        exists start_raw,
          PyStr.getitem ls (Z.of_nat (retraction_start_line st) - 1)
          = Some start_raw
          /\ emitted st'
             = emitted st ++ [event_at (retraction_start_line st)
                                (retraction_start_height st) start_raw (n, raw)]
          /\ in_retraction st'
             = negb (ltb (pos_Z (current_pos st')) (retraction_start_height st))
      else emitted st' = emitted st /\ in_retraction st' = true).
Proof.
  intros Hbody Hlifted Hskip.
  destruct (retraction_body_command _ _ _ _ _ Hskip Hbody)
    as (pos & st2 & _ & Hst2 & ->).
  rewrite (note_rise_lifted _ _ _ _ Hlifted) in Hst2.
  unfold note_rapid in Hst2. rewrite Hlifted in Hst2. scan_fields.
  destruct (is_rapid (command_text raw)); cbn [andb] in Hst2.
  - destruct (PyStr.getitem _ _) as [start_raw|]; [|discriminate].
    cbn [mbind option_bind] in Hst2. injection Hst2 as <-. scan_fields.
    split; [reflexivity|]. split; [reflexivity|].
    exists start_raw. split; [reflexivity|]. split; [reflexivity|].
    now destruct (ltb _ _).
  - injection Hst2 as <-. auto.
Qed.

Lemma on_plateau_loop (ls : list string) (start_raw : string) (raws : list string) :
  forall (st : Scan) (k : nat),
    in_retraction st = true ->
    PyStr.getitem ls (Z.of_nat (retraction_start_line st) - 1) = Some start_raw ->
    on_plateau (retraction_start_height st) (current_pos st) raws = true ->
    exists st',
      PyStr.for_loop (retraction_body ls) (PyStr.enumerate k raws) st = Some st'
      /\ in_retraction st' = true
      /\ retraction_start_line st' = retraction_start_line st
      /\ retraction_start_height st' = retraction_start_height st
      /\ emitted st'
         = emitted st ++ map (event_at (retraction_start_line st)
                                (retraction_start_height st) start_raw)
                             (PyStr.enumerate k raws).
Proof.
  induction raws as [|raw raws IH]; intros st k Hlifted Hstart Hplateau.
  - exists st. cbn. rewrite app_nil_r. auto.
  - cbn [on_plateau] in Hplateau.
    apply andb_true_iff in Hplateau as [Hhead Htail].
    apply andb_true_iff in Hhead as [Hskip Hrapid].
    apply negb_true_iff in Hskip.
    destruct (update_position _ _) as [pos|] eqn:Hpos; [|discriminate].
    apply andb_true_iff in Htail as [Hkeep Htail].
    apply negb_true_iff in Hkeep.
    set (st1 := {| current_pos := pos; prev_z := pos_Z pos;
                   in_retraction := true;
                   retraction_start_line := retraction_start_line st;
                   retraction_start_height := retraction_start_height st;
                   emitted := emitted st
                              ++ [event_at (retraction_start_line st)
                                    (retraction_start_height st) start_raw
                                    (k, raw)] |}).
    assert (Hbody : retraction_body ls st (k, raw) = Some st1).
    { unfold retraction_body. rewrite Hskip. fold (command_text raw).
      rewrite Hpos. cbn [mbind option_bind].
      rewrite (note_rise_lifted _ _ _ _ Hlifted). unfold note_rapid.
      rewrite Hlifted, Hrapid. cbn [andb]. rewrite Hstart.
      cbn [mbind option_bind]. scan_fields. rewrite Hkeep.
      reflexivity. }
    destruct (IH st1 (S k)) as (st' & Hloop & Hl & Hsl & Hsh & Hem);
      [reflexivity | exact Hstart | exact Htail |].
    exists st'. cbn [PyStr.enumerate PyStr.for_loop map].
    rewrite Hbody. cbn [mbind option_bind]. rewrite Hloop.
    repeat split; try assumption.
    rewrite Hem. subst st1. scan_fields. now rewrite <- app_assoc.
Qed.

(** C4: while LIFTED the start line and height never change; a round
    ends in NORMAL exactly when it is a rapid command line whose Z is
    below the start height, and every rapid command line records one more
    event with the start data.  On a plateau of N rapid lines the loop
    records N events that all carry the same start line and height, and
    the detector is still LIFTED after them. *)
Theorem lifted_rapid_lines_emit :
  (forall (ls : list string) (st st' : Scan) (n : nat) (raw : string),
      retraction_body ls st (n, raw) = Some st' ->
      in_retraction st = true ->
      retraction_start_line st' = retraction_start_line st
      /\ retraction_start_height st' = retraction_start_height st
      /\ (in_retraction st' = false <->
            is_skipped (PyStr.strip raw) = false
            /\ is_rapid (command_text raw) = true
            /\ ltb (pos_Z (current_pos st')) (retraction_start_height st) = true)
      /\ (is_skipped (PyStr.strip raw) = false ->
          is_rapid (command_text raw) = true ->
          exists start_raw,
            PyStr.getitem ls (Z.of_nat (retraction_start_line st) - 1)
            = Some start_raw
            /\ emitted st'
               = emitted st ++ [event_at (retraction_start_line st)
                                  (retraction_start_height st) start_raw
                                  (n, raw)]))
  /\ (forall (ls : list string) (st : Scan) (k : nat) (raws : list string)
             (start_raw : string),
         in_retraction st = true ->
         PyStr.getitem ls (Z.of_nat (retraction_start_line st) - 1)
         = Some start_raw ->
         on_plateau (retraction_start_height st) (current_pos st) raws = true ->
         exists st',
           PyStr.for_loop (retraction_body ls) (PyStr.enumerate k raws) st
           = Some st'
           /\ in_retraction st' = true
           /\ retraction_start_line st' = retraction_start_line st
           /\ retraction_start_height st' = retraction_start_height st
           /\ emitted st'
              = emitted st ++ map (event_at (retraction_start_line st)
                                     (retraction_start_height st) start_raw)
                                  (PyStr.enumerate k raws)).
Proof.
  split.
  - intros ls st st' n raw Hbody Hlifted.
    destruct (is_skipped (PyStr.strip raw)) eqn:Hskip.
    + rewrite (retraction_body_skip _ _ _ _ Hskip) in Hbody.
      injection Hbody as <-. rewrite Hlifted.
      repeat split; try discriminate. intros (? & _); discriminate.
    + destruct (lifted_round _ _ _ _ _ Hbody Hlifted Hskip)
        as (Hsl & Hsh & Hcase).
      split; [exact Hsl|]. split; [exact Hsh|].
      destruct (is_rapid (command_text raw)).
      * destruct Hcase as (start_raw & Hget & Hem & Hin). rewrite Hin.
        split.
        -- rewrite negb_false_iff. tauto.
        -- intros _ _. now exists start_raw.
      * destruct Hcase as [_ ->]. split; [|discriminate].
        split; [discriminate | intros (_ & ? & _); discriminate].
  - intros ls st k raws start_raw. apply on_plateau_loop.
Qed.

(** The theorem on [plateau_program]: its three rapid lines give three
    events that start at line 1 with height 5. *)
Lemma lifted_rapid_lines_emit_witness :
  exists st',
    PyStr.for_loop (retraction_body plateau_program)
      (PyStr.enumerate 2 ["G0 X1"; "G0 X2"; "G0 X3"]) lifted_at_5 = Some st'
    /\ in_retraction st' = true
    /\ retraction_start_line st' = 1
    /\ retraction_start_height st' = fl 5 0
    /\ emitted st'
       = [] ++ map (event_at 1 (fl 5 0) "G1 Z5")
                   (PyStr.enumerate 2 ["G0 X1"; "G0 X2"; "G0 X3"]).
Proof.
  refine (proj2 lifted_rapid_lines_emit plateau_program lifted_at_5 2
            ["G0 X1"; "G0 X2"; "G0 X3"] "G1 Z5" _ _ _).
  - reflexivity.
  - reflexivity.
  - vm_compute. reflexivity.
Defined.

(** ** The order of floats and the sort *)

Lemma ltb_rank (a b : float) :
  is_nan a = false -> is_nan b = false ->
  (ltb a b = true <-> lex_lt (rank a) (rank b)).
Proof.
  intros Ha Hb. unfold ltb, SFltb, SFcompare, lex_lt.
  destruct a as [sa|sa| |sa ma ea], b as [sb|sb| |sb mb eb];
    try discriminate; try destruct sa; try destruct sb; cbn;
    try (split; [discriminate | lia]); try (split; [reflexivity | lia]);
    try (split; [lia | reflexivity]).
  - change (Pos.compare_cont Eq ma mb) with (Pos.compare ma mb).
    destruct (Z.compare_spec ea eb), (Pos.compare_spec ma mb); cbn;
      split; try discriminate; try reflexivity; lia.
  - change (Pos.compare_cont Eq ma mb) with (Pos.compare ma mb).
    destruct (Z.compare_spec ea eb), (Pos.compare_spec ma mb); cbn;
      split; try discriminate; try reflexivity; lia.
Qed.

Lemma not_ltb_trans (a b c : float) :
  is_nan a = false -> is_nan b = false -> is_nan c = false ->
  ltb b a = false -> ltb c b = false -> ltb c a = false.
Proof.
  intros Ha Hb Hc Hba Hcb.
  apply not_true_iff_false. apply not_true_iff_false in Hba, Hcb.
  rewrite ltb_rank in * by assumption.
  unfold lex_lt in *. lia.
Qed.

Lemma ltb_asym (a b : float) : ltb a b = true -> ltb b a = false.
Proof.
  intros Hab. destruct (is_nan a) eqn:Ha; [now destruct a|].
  destruct (is_nan b) eqn:Hb; [now destruct a, b|].
  apply not_true_iff_false. rewrite ltb_rank in * by assumption.
  unfold lex_lt in *. lia.
Qed.

Section SortFacts.
Context {A : Type} (key : A -> float).

Lemma insert_sorted_perm (x : A) (l : list A) :
  Permutation (insert_sorted key x l) (x :: l).
Proof.
  induction l as [|y l IH]; cbn; [reflexivity|].
  destruct (ltb (key y) (key x)); [|reflexivity].
  rewrite IH. apply perm_swap.
Qed.

Lemma sort_by_perm (l : list A) : Permutation (sort_by key l) l.
Proof.
  induction l as [|x l IH]; cbn; [reflexivity|].
  now rewrite insert_sorted_perm, IH.
Qed.

Lemma insert_sorted_ascending (x : A) (l : list A) :
  is_nan (key x) = false ->
  Forall (fun y => is_nan (key y) = false) l ->
  ascending key l -> ascending key (insert_sorted key x l).
Proof.
  intros Hx Hl Hs. unfold ascending in *.
  induction Hs as [|y l Hs IH Hy]; cbn.
  - repeat constructor.
  - apply Forall_cons_1 in Hl as [Hyn Hl].
    destruct (ltb (key y) (key x)) eqn:Hyx.
    + constructor; [now apply IH|].
      rewrite insert_sorted_perm.
      constructor; [now apply ltb_asym | exact Hy].
    + constructor; [now constructor|].
      constructor; [exact Hyx|].
      rewrite List.Forall_forall in Hy, Hl. apply List.Forall_forall.
      intros z Hz.
      apply (not_ltb_trans (key x) (key y) (key z)); auto.
Qed.

Lemma sort_by_ascending (l : list A) :
  Forall (fun y => is_nan (key y) = false) l -> ascending key (sort_by key l).
Proof.
  induction 1 as [|x l Hx Hl IH]; cbn; [constructor|].
  apply insert_sorted_ascending; [exact Hx | | exact IH].
  now rewrite sort_by_perm.
Qed.

End SortFacts.

(** ** The grouping pass *)

Lemma close_group_stamp (g : list RetractionEvent) :
  g <> [] -> close_group g = Some (stamp_cluster g).
Proof.
  intros Hg. unfold close_group, stamp_cluster, mean_height, truediv_int.
  destruct g as [|r g]; [contradiction|]. reflexivity.
Qed.

Lemma group_body_snoc (grouped cluster : list RetractionEvent)
  (latest x : RetractionEvent) :
  group_body (grouped, cluster ++ [latest]) x
  = if within_tolerance latest x
    then Some (grouped, (cluster ++ [latest]) ++ [x])
    else Some (grouped ++ stamp_cluster (cluster ++ [latest]), [x]).
Proof.
  unfold group_body. rewrite last_snoc. cbn [mbind option_bind].
  fold (within_tolerance latest x).
  destruct (within_tolerance latest x); [reflexivity|].
  rewrite close_group_stamp by (now destruct cluster). reflexivity.
Qed.

Lemma group_loop_chain (others : list RetractionEvent) :
  forall (grouped cluster : list RetractionEvent) (latest : RetractionEvent),
    PyStr.for_loop group_body others (grouped, cluster ++ [latest])
    ≫= finish_groups
    = Some (grouped
            ++ concat (map stamp_cluster (chain_from cluster latest others))).
Proof.
  induction others as [|x others IH]; intros grouped cluster latest.
  - cbn [PyStr.for_loop mbind option_bind chain_from map concat].
    unfold finish_groups. cbn [fst snd].
    rewrite close_group_stamp by (now destruct cluster).
    cbn [mbind option_bind]. rewrite app_nil_r.
    now destruct (cluster ++ [latest]) eqn:E; [destruct cluster|].
  - cbn [PyStr.for_loop chain_from]. rewrite group_body_snoc.
    destruct (within_tolerance latest x); cbn [mbind option_bind].
    + apply IH.
    + rewrite (IH _ [] x). cbn [map concat]. now rewrite app_assoc.
Qed.

Lemma group_similar_refines (rs : list RetractionEvent) :
  _group_similar_retractions rs
  = Some (concat (map stamp_cluster (chain_clusters (sort_by r_z_height rs)))).
Proof.
  unfold _group_similar_retractions.
  destruct rs as [|r rs]; [reflexivity|].
  destruct (sort_by r_z_height (r :: rs)) as [|first others] eqn:Hsort.
  - apply (f_equal length) in Hsort.
    rewrite (Permutation_length (sort_by_perm r_z_height (r :: rs))) in Hsort.
    discriminate.
  - cbn [chain_clusters].
    pose proof (group_loop_chain others [] [] first) as H.
    cbn [app] in H. rewrite <- H.
    destruct (PyStr.for_loop group_body others ([], [first]))
      as [[grouped current_group]|]; reflexivity.
Qed.

Lemma chain_from_concat (l : list RetractionEvent) :
  forall cluster latest,
    concat (chain_from cluster latest l) = cluster ++ latest :: l.
Proof.
  induction l as [|x l IH]; intros cluster latest; cbn [chain_from].
  - cbn. now rewrite app_nil_r.
  - destruct (within_tolerance latest x).
    + rewrite IH, <- app_assoc. reflexivity.
    + cbn [concat]. rewrite IH, <- app_assoc. reflexivity.
Qed.

Lemma chained_snoc (c : list RetractionEvent) (a b : RetractionEvent) :
  chained (c ++ [a]) -> within_tolerance a b = true ->
  chained ((c ++ [a]) ++ [b]).
Proof.
  intros Hc Hab. induction c as [|x c IH]; cbn.
  - auto.
  - destruct c as [|y c]; cbn in *; intuition.
Qed.

Lemma chain_from_chained (l : list RetractionEvent) :
  forall cluster latest,
    chained (cluster ++ [latest]) ->
    Forall (fun c => c <> [] /\ chained c) (chain_from cluster latest l).
Proof.
  induction l as [|x l IH]; intros cluster latest Hc; cbn [chain_from].
  - constructor; [|constructor]. split; [now destruct cluster | exact Hc].
  - destruct (within_tolerance latest x) eqn:Htol.
    + apply IH. now apply chained_snoc.
    + constructor; [split; [now destruct cluster | exact Hc]|].
      apply (IH [] x). exact I.
Qed.

Lemma chain_from_head (l : list RetractionEvent) :
  forall cluster latest,
    exists c cs, chain_from cluster latest l = c :: cs
                 /\ head c = head (cluster ++ [latest]).
Proof.
  induction l as [|x l IH]; intros cluster latest; cbn [chain_from].
  - eauto.
  - destruct (within_tolerance latest x).
    + destruct (IH (cluster ++ [latest]) x) as (c & cs & -> & Hh).
      exists c, cs. split; [reflexivity|]. rewrite Hh.
      now destruct cluster.
    + eauto.
Qed.

Lemma chain_from_apart (l : list RetractionEvent) :
  forall cluster latest, apart (chain_from cluster latest l).
Proof.
  induction l as [|x l IH]; intros cluster latest; cbn [chain_from].
  - exact I.
  - destruct (within_tolerance latest x) eqn:Htol; [apply IH|].
    pose proof (IH [] x) as Hrest.
    destruct (chain_from_head l [] x) as (d & ds & Hd & Hh).
    rewrite Hd in *. cbn [apart]. split; [|exact Hrest].
    exists latest, x. rewrite last_snoc, Hh. auto.
Qed.

(** C5: the grouping pass sorts the events by height (a permutation, in
    ascending order when no height is NaN), cuts the sorted sequence into
    clusters chained by the 0.1 tolerance to the member added last, and
    gives every member of a cluster, singletons included, the mean height
    rounded to three decimals, the flag and the cluster size.  The heights
    5.00, 5.05, 5.12 and 8.00 end as 5.057 three times with size 3 and 8.0
    with size 1. *)
Theorem grouping_clusters_by_chained_tolerance :
  (forall rs : list RetractionEvent,
      _group_similar_retractions rs
      = Some (concat (map stamp_cluster
                        (chain_clusters (sort_by r_z_height rs))))
      /\ Permutation (sort_by r_z_height rs) rs
      /\ (Forall (fun r => is_nan (r_z_height r) = false) rs ->
          ascending r_z_height (sort_by r_z_height rs)))
  /\ (forall l : list RetractionEvent,
         concat (chain_clusters l) = l
         /\ Forall (fun c => c <> [] /\ chained c) (chain_clusters l)
         /\ apart (chain_clusters l))
  /\ (emitted <$> scan_lines four_heights) = Some four_events
  /\ detect_retractions four_heights
     = Some [grouped_event 1 (fl 5057 3) "G1 Z5.00" (2, "G0 Z0") 3;
             grouped_event 3 (fl 5057 3) "G1 Z5.05" (4, "G0 Z0") 3;
             grouped_event 5 (fl 5057 3) "G1 Z5.12" (6, "G0 Z0") 3;
             grouped_event 7 (fl 8 0) "G1 Z8.00" (8, "G0 Z0") 1].
Proof.
  split; [|split; [|split; vm_compute; reflexivity]].
  - intros rs. split; [apply group_similar_refines|].
    split; [apply sort_by_perm | apply sort_by_ascending].
  - intros [|x l]; cbn [chain_clusters].
    + repeat split; constructor.
    + split; [apply (chain_from_concat l [] x)|].
      split; [apply (chain_from_chained l [] x); exact I
             | apply chain_from_apart].
Qed.

(** The theorem at the four events of [four_heights]. *)
Lemma grouping_clusters_by_chained_tolerance_witness :
  ascending r_z_height (sort_by r_z_height four_events).
Proof.
  refine (proj2 (proj2 (proj1 grouping_clusters_by_chained_tolerance
                          four_events)) _).
  repeat constructor.
Defined.

(** The mean of the first cluster is the same, 5.057 after rounding,
    when the sum is the compensated one. *)
Lemma example_mean_with_compensated_sum :
  round (SFdiv prec emax (sum_compensated [fl 500 2; fl 505 2; fl 512 2])
           (of_nat 3)) 3
  = fl 5057 3
  /\ round (SFdiv prec emax (sum [fl 500 2; fl 505 2; fl 512 2]) (of_nat 3)) 3
     = fl 5057 3.
Proof. split; vm_compute; reflexivity. Qed.

(** ** Rapid-move classification *)

(** C6 fails on the code: the rapid pattern is searched anywhere in the
    line without a word boundary, so the feed move [G01 X10] counts as
    rapid and records an event. *)
Theorem feed_move_G01_counts_as_rapid :
  is_rapid (command_text "G01 X10") = true
  /\ detect_retractions lift_then_feed
     = Some [grouped_event 1 (fl 5 0) "G1 Z5" (2, "G01 X10") 1].
Proof. split; vm_compute; reflexivity. Qed.

(** ** Position tracking in the two passes *)

(** C7 fails on the code: the retraction pass deletes comments and lets
    the last occurrence of an axis win, the path walk reads the raw line
    and takes the first occurrence.  On [axis_in_comment] the walk moves
    Z to 5 while the detector leaves it at 0; on [axis_twice] the walk
    keeps X 1 while the detector ends at X 2; the rapid segment of
    [rapid_axis_in_comment] ends at Z 5 too.  The line with the comment
    "(ignored T9)" registers no tool change and sets Z to 1. *)
Theorem path_walk_departs_from_position_contract :
  (current_pos <$> scan_lines axis_in_comment)
  = Some {| pos_X := fl 1 0; pos_Y := fl 0 0; pos_Z := fl 0 0 |}
  /\ (app_after_parse axis_in_comment ≫= extract_tool_paths)
     = Some {[ "1" := [[fl 0 0; fl 0 0; fl 0 0]; [fl 1 0; fl 0 0; fl 5 0]] ]}
  /\ (current_pos <$> scan_lines axis_twice)
     = Some {| pos_X := fl 2 0; pos_Y := fl 0 0; pos_Z := fl 0 0 |}
  /\ (app_after_parse axis_twice ≫= extract_tool_paths)
     = Some {[ "1" := [[fl 0 0; fl 0 0; fl 0 0]; [fl 1 0; fl 0 0; fl 0 0]] ]}
  /\ (app_after_parse rapid_axis_in_comment ≫= extract_rapid_segments)
     = Some {[ "1" := [([fl 0 0; fl 0 0; fl 0 0], [fl 1 0; fl 0 0; fl 5 0])] ]}
  /\ detect_tool_changes ["G1 Z1 ; retract (ignored T9)"] = []
  /\ (current_pos <$> scan_lines ["G1 Z1 ; retract (ignored T9)"])
     = Some {| pos_X := fl 0 0; pos_Y := fl 0 0; pos_Z := fl 1 0 |}.
Proof. repeat split; vm_compute; reflexivity. Qed.

(** ** The summary *)

Lemma add_to_group_nonempty (h : float) (r : RetractionEvent)
  (groups : list (float * list RetractionEvent)) :
  Forall (fun g => g.2 <> []) groups ->
  add_to_group h r groups <> []
  /\ Forall (fun g => g.2 <> []) (add_to_group h r groups).
Proof.
  induction 1 as [|[k members] groups Hg Hgs IH]; cbn [add_to_group].
  - split; [discriminate | repeat constructor; discriminate].
  - destruct (eqb k h).
    + split; [discriminate|]. constructor; [now destruct members | exact Hgs].
    + split; [discriminate|]. constructor; [exact Hg | apply IH].
Qed.

Lemma add_to_group_total (h : float) (r : RetractionEvent)
  (groups : list (float * list RetractionEvent)) :
  sum_list (map (fun g => length g.2) (add_to_group h r groups))
  = S (sum_list (map (fun g => length g.2) groups)).
Proof.
  induction groups as [|[k members] groups IH]; cbn [add_to_group].
  - reflexivity.
  - destruct (eqb k h); cbn [map sum_list snd].
    + rewrite length_app. cbn. lia.
    + rewrite IH. lia.
Qed.

Lemma fold_groups_nonempty (rs : list RetractionEvent) :
  forall groups,
    Forall (fun g => g.2 <> []) groups ->
    let groups' :=
      fold_left (fun groups r => add_to_group (r_z_height r) r groups)
                rs groups in
    Forall (fun g => g.2 <> []) groups'
    /\ (rs <> [] -> groups' <> [])
    /\ sum_list (map (fun g => length g.2) groups')
       = length rs + sum_list (map (fun g => length g.2) groups).
Proof.
  induction rs as [|r rs IH]; intros groups Hg; cbn [fold_left].
  - auto.
  - destruct (add_to_group_nonempty (r_z_height r) r groups Hg) as [Hne Hall].
    destruct (IH _ Hall) as (H1 & H2 & H3). cbn zeta in *.
    split; [exact H1|]. split.
    + intros _. destruct rs as [|r' rs]; [exact Hne | now apply H2].
    + rewrite H3, add_to_group_total. cbn [length]. lia.
Qed.

Lemma all_height_lines_total (items : list (float * list RetractionEvent)) :
  Forall (fun g => g.2 <> []) items -> is_Some (all_height_lines items).
Proof.
  induction 1 as [|[h members] items Hg _ IH]; cbn [all_height_lines].
  - eauto.
  - destruct members as [|first members]; [contradiction|].
    destruct IH as [there ->]. cbn. eauto.
Qed.

Lemma largest_from_spec {K A} (items : list (K * list A)) :
  forall best,
    In (largest_from best items) (best :: items)
    /\ Forall (fun g => length g.2 <= length (largest_from best items).2)
              (best :: items).
Proof.
  induction items as [|item items IH]; intros best; cbn [largest_from].
  - split; [now left | repeat constructor].
  - destruct (Nat.ltb_spec (length best.2) (length item.2)) as [Hlt|Hge].
    + destruct (IH item) as [Hin Hall]. split; [now right|].
      apply Forall_cons_1 in Hall as [Hitem Hall].
      constructor; [lia|]. now constructor.
    + destruct (IH best) as [Hin Hall]. split.
      * destruct Hin as [<-|Hin]; [now left | right; now right].
      * apply Forall_cons_1 in Hall as [Hbest Hall].
        constructor; [exact Hbest|]. constructor; [lia | exact Hall].
Qed.

(** The report on a non-empty list of retractions: the lines per height,
    then the three lines about the height with the most members. *)
Lemma retraction_lines_nonempty (r : RetractionEvent) (rs : list RetractionEvent) :
  exists primary per_height,
    In primary (group_by_height (r :: rs))
    /\ Forall (fun g => length g.2 <= length primary.2)
              (group_by_height (r :: rs))
    /\ sum_list (map (fun g => length g.2) (group_by_height (r :: rs)))
       = length (r :: rs)
    /\ retraction_lines (r :: rs)
       = Some (per_height
               ++ [nl +:+ "Primary Retraction Height: "
                     +:+ format_fixed primary.1 3;
                   "  Used in " +:+ pretty (length primary.2)
                     +:+ " out of " +:+ pretty (length (r :: rs))
                     +:+ " retractions";
                   "  ("
                     +:+ format_fixed
                           (mul (of_ratio false (N.of_nat (length primary.2))
                                   (Pos.of_nat (length (r :: rs))))
                                (of_nat 100)) 1
                     +:+ "% of all retractions)"]).
Proof.
  unfold retraction_lines, group_by_height.
  destruct (fold_groups_nonempty (r :: rs) [] (List.Forall_nil _))
    as (Hall & Hne & Hsum).
  cbn zeta in *. specialize (Hne ltac:(discriminate)).
  set (groups := fold_left _ (r :: rs) []) in *.
  destruct (all_height_lines_total (sort_by fst groups)) as [per_height Hper].
  { now rewrite sort_by_perm. }
  rewrite Hper. cbn [mbind option_bind].
  destruct groups as [|first others] eqn:Hgroups; [contradiction|].
  destruct (largest_from_spec others first) as [Hin Hmax].
  exists (largest_from first others), per_height.
  split; [exact Hin|]. split; [exact Hmax|].
  split; [rewrite Hsum; cbn; lia|].
  cbn [primary_lines int_truediv length mbind option_bind]. reflexivity.
Qed.

Lemma summary_lines_total (p : GCodeParser) : is_Some (summary_lines p).
Proof.
  unfold summary_lines.
  destruct (retractions p) as [|r rs].
  - cbn. eauto.
  - destruct (retraction_lines_nonempty r rs) as (? & ? & _ & _ & _ & ->).
    cbn. eauto.
Qed.

Lemma summarize_joins (p : GCodeParser) (out : list string) :
  summary_lines p = Some out -> summarize p = Some (PyStr.join nl out).
Proof. intros H. unfold summarize. now rewrite H. Qed.

(** C9: [summarize] returns a text for every state of the parser, and
    the text is its lines joined by newlines.  Without tool changes the
    text says so, without retractions it says so and holds no
    percentage.  With retractions, the text ends with the three lines
    about the primary height: that height is the key of a bucket of the
    height dictionary that no other bucket exceeds in members, the
    buckets hold all the retractions, and the percentage is the member
    count of that bucket divided by the number of retractions.  Five
    events at 1.0 and two at 2.0 give 1.000 as primary with 71.4%. *)
Theorem summarize_guards_degenerate_input :
  (forall p : GCodeParser, exists text, summarize p = Some text)
  /\ (forall (ls : list string) (rs : list RetractionEvent),
         exists heights,
           summarize {| lines := ls; tool_changes := []; retractions := rs |}
           = Some (PyStr.join nl
                     (["=== G-code Analysis Summary ===";
                       nl +:+ "Tool Changes:"; "No tool changes detected.";
                       nl +:+ "Retraction Heights:"]
                      ++ heights)))
  /\ (forall (ls : list string) (tcs : list ToolChangeEvent),
         exists tools,
           summarize {| lines := ls; tool_changes := tcs; retractions := [] |}
           = Some (PyStr.join nl
                     (["=== G-code Analysis Summary ===";
                       nl +:+ "Tool Changes:"]
                      ++ tools
                      ++ [nl +:+ "Retraction Heights:";
                          "No retractions detected."])))
  /\ (forall (ls : list string) (tcs : list ToolChangeEvent)
             (r : RetractionEvent) (rs : list RetractionEvent),
         exists primary before,
           In primary (group_by_height (r :: rs))
           /\ Forall (fun g => length g.2 <= length primary.2)
                     (group_by_height (r :: rs))
           /\ sum_list (map (fun g => length g.2) (group_by_height (r :: rs)))
              = length (r :: rs)
           /\ summarize
                {| lines := ls; tool_changes := tcs; retractions := r :: rs |}
              = Some (PyStr.join nl
                        (before
                         ++ [nl +:+ "Primary Retraction Height: "
                               +:+ format_fixed primary.1 3;
                             "  Used in " +:+ pretty (length primary.2)
                               +:+ " out of " +:+ pretty (length (r :: rs))
                               +:+ " retractions";
                             "  ("
                               +:+ format_fixed
                                     (mul (of_ratio false
                                             (N.of_nat (length primary.2))
                                             (Pos.of_nat (length (r :: rs))))
                                          (of_nat 100)) 1
                               +:+ "% of all retractions)"])))
  /\ (parse (loaded five_and_two) ≫= summarize)
     = Some (PyStr.join nl
               ["=== G-code Analysis Summary ==="; nl +:+ "Tool Changes:";
                "No tool changes detected."; nl +:+ "Retraction Heights:";
                "Z Height: 1.000 (first on line 1)"; "  Found in 5 movements";
                "Z Height: 2.000 (first on line 7)"; "  Found in 2 movements";
                nl +:+ "Primary Retraction Height: 1.000";
                "  Used in 5 out of 7 retractions";
                "  (71.4% of all retractions)"]).
Proof.
  split; [|split; [|split; [|split]]].
  - intros p. unfold summarize.
    destruct (summary_lines_total p) as [ls ->]. cbn. eauto.
  - intros ls rs.
    destruct (summary_lines_total
                {| lines := ls; tool_changes := []; retractions := rs |})
      as [out Hout].
    unfold summary_lines in Hout. cbn [tool_changes retractions] in Hout.
    destruct (retraction_lines rs) as [heights|] eqn:Hheights;
      [|now cbn in Hout].
    exists heights. apply summarize_joins.
    unfold summary_lines. cbn [tool_changes retractions].
    now rewrite Hheights.
  - intros ls tcs. eexists. apply summarize_joins.
    unfold summary_lines. cbn. reflexivity.
  - intros ls tcs r rs.
    destruct (retraction_lines_nonempty r rs)
      as (primary & per_height & Hin & Hmax & Hsum & Hlines).
    exists primary. eexists. split; [exact Hin|]. split; [exact Hmax|].
    split; [exact Hsum|]. apply summarize_joins.
    unfold summary_lines. cbn [tool_changes retractions]. rewrite Hlines.
    cbn [mbind option_bind]. rewrite !app_assoc. reflexivity.
  - vm_compute. reflexivity.
Qed.

(** ** Soundness of the matcher *)

Lemma string_app_cons (c : ascii) (s t : string) :
  String c s +:+ t = String c (s +:+ t).
Proof. reflexivity. Qed.

Lemma string_app_nil_r (s : string) : s +:+ "" = s.
Proof.
  induction s as [|c s IH]; [reflexivity|].
  now rewrite string_app_cons, IH.
Qed.

Lemma string_app_assoc (a b c : string) : (a +:+ b) +:+ c = a +:+ (b +:+ c).
Proof.
  induction a as [|x a IH]; [reflexivity|].
  now rewrite !string_app_cons, IH.
Qed.

Lemma iterate_sound (body : string -> list Re.hit) (r : Re.regex) :
  (forall s h, In h (body s) ->
               Re.lang r (Re.consumed h) /\ s = Re.consumed h +:+ Re.rest h) ->
  forall fuel s h,
    In h (Re.iterate body fuel s) ->
    Re.lang (Re.Star r) (Re.consumed h) /\ s = Re.consumed h +:+ Re.rest h.
Proof.
  intros Hbody fuel.
  induction fuel as [|fuel IH]; intros s h Hin; cbn [Re.iterate] in Hin.
  - destruct Hin as [<-|[]]. split; [constructor | reflexivity].
  - apply in_app_or in Hin as [Hin|[<-|[]]];
      [|split; [constructor | reflexivity]].
    apply in_flat_map in Hin as (h1 & Hh1 & Hin).
    destruct (PyStr.is_empty (Re.consumed h1)); [contradiction|].
    apply in_map_iff in Hin as (h2 & <- & Hh2).
    destruct (Hbody _ _ Hh1) as [Hl1 Hs1].
    destruct (IH _ _ Hh2) as [Hl2 Hs2].
    cbn [Re.then_hit Re.consumed Re.rest]. split.
    + now constructor.
    + now rewrite string_app_assoc, <- Hs2.
Qed.

(** Whatever the matcher reports is a word of the pattern, and splits
    the subject. *)
Lemma run_sound (r : Re.regex) :
  forall s h, In h (Re.run r s) ->
              Re.lang r (Re.consumed h) /\ s = Re.consumed h +:+ Re.rest h.
Proof.
  induction r as [|p|r1 IH1 r2 IH2|r1 IH1 r2 IH2|r1 IH1|r1 IH1|];
    intros s h Hin; cbn [Re.run] in Hin.
  - destruct Hin as [<-|[]]. split; [constructor | reflexivity].
  - destruct s as [|c s]; [contradiction|].
    destruct (p c) eqn:Hp; [|contradiction].
    destruct Hin as [<-|[]]. split; [now constructor | reflexivity].
  - apply in_flat_map in Hin as (h1 & Hh1 & Hin).
    apply in_map_iff in Hin as (h2 & <- & Hh2).
    destruct (IH1 _ _ Hh1) as [Hl1 Hs1], (IH2 _ _ Hh2) as [Hl2 Hs2].
    cbn [Re.then_hit Re.consumed Re.rest]. split.
    + now constructor.
    + now rewrite string_app_assoc, <- Hs2.
  - apply in_app_or in Hin as [Hin|Hin].
    + destruct (IH1 _ _ Hin). split; [now apply Re.lang_alt_l | assumption].
    + destruct (IH2 _ _ Hin). split; [now apply Re.lang_alt_r | assumption].
  - now apply (iterate_sound (Re.run r1) r1 IH1 (String.length s)).
  - apply in_map_iff in Hin as (h1 & <- & Hh1).
    destruct (IH1 _ _ Hh1). cbn. split; [now constructor | assumption].
  - destruct s as [|c s].
    + destruct Hin as [<-|[]]. split; [constructor | reflexivity].
    + destruct (PyStr.is_word c); [contradiction|].
      destruct Hin as [<-|[]]. split; [constructor | reflexivity].
Qed.

Lemma search_from_run (r : Re.regex) (s : string) (h : Re.hit) :
  Re.search r s = Some h -> exists s', In h (Re.run r s').
Proof.
  induction s as [|c s IH]; cbn [Re.search].
  - destruct (Re.run r "") as [|h0 l] eqn:E; [discriminate|].
    intros [= <-]. exists "". rewrite E. now left.
  - destruct (Re.run r (String c s)) as [|h0 l] eqn:E; [exact IH|].
    intros [= <-]. exists (String c s). rewrite E. now left.
Qed.

Lemma finditer_from_run (r : Re.regex) (fuel : nat) :
  forall s, Forall (fun h => exists s', In h (Re.run r s'))
                   (Re.finditer_from fuel r s).
Proof.
  induction fuel as [|fuel IH]; intros s; cbn [Re.finditer_from].
  - constructor.
  - destruct (Re.search r s) as [h|] eqn:Hs; [|constructor].
    constructor; [now apply (search_from_run r s)|].
    destruct (PyStr.is_empty _); [|apply IH].
    destruct (Re.rest h); [constructor | apply IH].
Qed.

(** ** Every captured number can be read *)

Lemma lang_star_digits (w : string) :
  Re.lang (Re.Star Re.digit) w -> all_digits w = true.
Proof.
  intros H. remember (Re.Star Re.digit) as r eqn:Hr.
  induction H as [| | | | | |r0 w1 w2 H1 _ H2 IH2| |]; try discriminate.
  - reflexivity.
  - injection Hr as ->. specialize (IH2 eq_refl).
    inversion H1 as [|p c Hc| | | | | | |]; subst. cbn [all_digits].
    rewrite string_app_cons. cbn [all_digits]. now rewrite Hc.
Qed.

Lemma all_digits_app (a b : string) :
  all_digits a = true -> all_digits b = true -> all_digits (a +:+ b) = true.
Proof.
  intros Ha Hb. induction a as [|c a IH]; [exact Hb|].
  rewrite string_app_cons. cbn [all_digits] in *.
  apply andb_true_iff in Ha as [-> Ha]. now apply IH.
Qed.

Lemma span_digits_all (d r : string) :
  all_digits d = true ->
  match r with String c _ => PyStr.is_digit c = false | EmptyString => True end ->
  span_digits (d +:+ r) = (d, r).
Proof.
  intros Hd Hr. induction d as [|c d IH].
  - change ("" +:+ r) with r. destruct r as [|c r]; [reflexivity|].
    cbn [span_digits]. now rewrite Hr.
  - rewrite string_app_cons. cbn [all_digits] in Hd.
    apply andb_true_iff in Hd as [Hc Hd].
    cbn [span_digits]. now rewrite Hc, (IH Hd).
Qed.

Lemma is_empty_app_cons (a : string) (c : ascii) (b : string) :
  PyStr.is_empty (a +:+ String c b) = false.
Proof. now destruct a. Qed.

Lemma of_unsigned_digits (neg : bool) (d1 d3 : string) (c : ascii) :
  all_digits d1 = true -> PyStr.is_digit c = true -> all_digits d3 = true ->
  is_Some (of_unsigned neg (d1 +:+ String c d3))
  /\ is_Some (of_unsigned neg (d1 +:+ String "." (String c d3))).
Proof.
  intros H1 Hc H3.
  assert (Hcd : all_digits (String c d3) = true)
    by (cbn [all_digits]; now rewrite Hc).
  split; unfold of_unsigned.
  - rewrite <- (string_app_nil_r (d1 +:+ String c d3)).
    rewrite span_digits_all by (auto using all_digits_app).
    rewrite string_app_nil_r.
    cbn [PyStr.is_empty andb]. rewrite is_empty_app_cons. cbn. eauto.
  - rewrite span_digits_all by (auto; reflexivity).
    rewrite <- (string_app_nil_r (String c d3)).
    rewrite span_digits_all by auto.
    cbn [PyStr.is_empty andb]. rewrite is_empty_app_cons. cbn. eauto.
Qed.

Lemma split_sign_digit (c : ascii) (s : string) :
  PyStr.is_digit c = true -> split_sign (String c s) = (false, String c s).
Proof.
  destruct c as [[] [] [] [] [] [] [] []]; try discriminate; reflexivity.
Qed.

Lemma number_readable (w : string) :
  Re.lang Pat.number w -> is_Some (of_string w).
Proof.
  unfold Pat.number, Re.Opt, Re.Plus, Re.one_of, Re.lit. intros H.
  inversion H as [| |? ? sg t Hsg Ht| | | | | |]; subst; clear H.
  inversion Ht as [| |? ? d1 u Hd1 Hu| | | | | |]; subst; clear Ht.
  inversion Hu as [| |? ? pt v Hpt Hv| | | | | |]; subst; clear Hu.
  inversion Hv as [| |? ? dc d3 Hdc Hd3| | | | | |]; subst; clear Hv.
  inversion Hdc as [|? c Hc| | | | | | |]; subst; clear Hdc.
  apply lang_star_digits in Hd1, Hd3.
  destruct (of_unsigned_digits true d1 d3 c Hd1 Hc Hd3) as [Hn1 Hn2].
  destruct (of_unsigned_digits false d1 d3 c Hd1 Hc Hd3) as [Hp1 Hp2].
  assert (Hpt' : pt = "" \/ pt = ".").
  { inversion Hpt as [| | |? ? ? Hl|? ? ? Hr| | | |]; subst.
    - inversion Hl as [|? x Hx| | | | | | |]; subst.
      apply Ascii.eqb_eq in Hx as <-. now right.
    - inversion Hr. now left. }
  assert (Hbody : forall neg,
             is_Some (of_unsigned neg (d1 +:+ pt +:+ String c "" +:+ d3))).
  { intros neg. rewrite string_app_cons. change ("" +:+ d3) with d3.
    destruct Hpt' as [-> | ->].
    - change ("" +:+ String c d3) with (String c d3). now destruct neg.
    - rewrite string_app_cons. change ("" +:+ String c d3) with (String c d3).
      now destruct neg. }
  inversion Hsg as [| | |? ? ? Hl|? ? ? Hr| | | |]; subst.
  - inversion Hl as [|? x Hx| | | | | | |]; subst.
    cbn [existsb list_ascii_of_string] in Hx.
    rewrite orb_false_r in Hx. apply orb_true_iff in Hx as [Hx|Hx];
      apply Ascii.eqb_eq in Hx as ->; rewrite string_app_cons;
      unfold of_string; cbn [split_sign]; apply Hbody.
  - inversion Hr. change ("" +:+ ?x) with x. unfold of_string.
    specialize (Hbody false).
    destruct d1 as [|x d1].
    + change ("" +:+ ?x) with x in *.
      destruct Hpt' as [-> | ->].
      * change ("" +:+ ?x) with x in *. rewrite string_app_cons in *.
        now rewrite (split_sign_digit c _ Hc).
      * rewrite string_app_cons in *. exact Hbody.
    + rewrite string_app_cons in *. cbn [all_digits] in Hd1.
      apply andb_true_iff in Hd1 as [Hx _].
      now rewrite (split_sign_digit x _ Hx).
Qed.

Lemma position_hit_assign (p : Position) (h : Re.hit) :
  (exists s, In h (Re.run Pat.position_pattern s)) ->
  is_Some (assign_match p h).
Proof.
  intros [s Hin]. unfold Pat.position_pattern, Re.one_of in Hin.
  cbn [Re.run] in Hin.
  apply in_flat_map in Hin as (h1 & Hh1 & Hin).
  apply in_map_iff in Hin as (h2 & <- & Hh2).
  apply in_map_iff in Hh2 as (h3 & <- & Hh3).
  destruct s as [|c s]; [contradiction|].
  destruct (existsb _ _); [|contradiction].
  destruct Hh1 as [<-|[]]. cbn [Re.rest] in Hh3.
  apply run_sound in Hh3 as [Hnum _].
  destruct (number_readable _ Hnum) as [value Hvalue].
  unfold assign_match. cbn [Re.then_hit Re.consumed Re.group1 Re.later].
  rewrite string_app_cons. cbn [mbind option_bind]. rewrite Hvalue.
  cbn. eauto.
Qed.

Lemma update_position_total (p : Position) (s : string) :
  is_Some (update_position p s).
Proof.
  unfold update_position, Re.finditer.
  pose proof (finditer_from_run Pat.position_pattern
                (S (String.length s)) s) as Hall.
  revert p. induction Hall as [|h hs Hh _ IH]; intros p; cbn [PyStr.for_loop].
  - eauto.
  - destruct (position_hit_assign p h Hh) as [p' ->]. cbn. apply IH.
Qed.

(** ** The detection loop never raises *)

Lemma recorded_mono (ls : list string) (k k' : nat) (r : RetractionEvent) :
  k <= k' -> recorded ls k r -> recorded ls k' r.
Proof. unfold recorded. intros Hk (H1 & H2 & H3 & H4). repeat split; auto; lia. Qed.

Lemma getitem_line (ls : list string) (n : nat) :
  1 <= n -> PyStr.getitem ls (Z.of_nat n - 1) = ls !! (n - 1).
Proof.
  intros Hn. unfold PyStr.getitem.
  destruct (Z.leb_spec 0 (Z.of_nat n - 1)); [|lia].
  f_equal. lia.
Qed.

Lemma retraction_body_ok (ls : list string) (st : Scan) (n : nat) (raw : string) :
  1 <= n ->
  ls !! (n - 1) = Some raw ->
  scan_ok ls (n - 1) st ->
  exists st', retraction_body ls st (n, raw) = Some st' /\ scan_ok ls n st'.
Proof.
  intros Hn Hraw [Hstart Hrec].
  assert (Hrec' : Forall (recorded ls n) (emitted st)).
  { eapply Forall_impl; [exact Hrec|]. intros r. apply recorded_mono. lia. }
  unfold retraction_body.
  destruct (is_skipped (PyStr.strip raw)).
  { exists st. split; [reflexivity|]. split; [|exact Hrec'].
    intros H. specialize (Hstart H). lia. }
  fold (command_text raw).
  destruct (update_position_total (current_pos st) (command_text raw))
    as [pos ->].
  cbn [mbind option_bind].
  set (st1 := note_rise n (is_z_movement (command_text raw)) pos st).
  assert (H1 : (in_retraction st1 = true ->
                1 <= retraction_start_line st1 <= n)
               /\ emitted st1 = emitted st).
  { subst st1. unfold note_rise.
    destruct (_ && _); [|split; [intros H; specialize (Hstart H); lia | easy]].
    destruct (in_retraction st) eqn:Hin; cbn [negb].
    - split; [intros _; specialize (Hstart eq_refl); lia | reflexivity].
    - scan_fields. split; [lia | reflexivity]. }
  destruct H1 as [Hstart1 Hem1]. clearbody st1.
  unfold note_rapid.
  destruct (in_retraction st1 && is_rapid (command_text raw)) eqn:Hemit.
  - apply andb_true_iff in Hemit as [Hin _]. specialize (Hstart1 Hin).
    rewrite getitem_line by lia.
    destruct (lookup_lt_is_Some_2 ls (retraction_start_line st1 - 1))
      as [start_raw Hsr].
    { apply lookup_lt_Some in Hraw. lia. }
    rewrite Hsr. cbn [mbind option_bind]. eexists. split; [reflexivity|].
    scan_fields. split.
    + intros _. exact Hstart1.
    + rewrite Hem1. apply Forall_app. split; [exact Hrec'|].
      constructor; [|constructor]. unfold recorded.
      cbn [r_line_number r_end_line r_line_content r_end_content].
      repeat split; try lia; eauto.
  - cbn [mbind option_bind]. eexists. split; [reflexivity|].
    scan_fields. split; [exact Hstart1 | now rewrite Hem1].
Qed.

Lemma scan_loop_ok (ls suf : list string) :
  forall (pre : list string) (st : Scan),
    ls = pre ++ suf ->
    scan_ok ls (length pre) st ->
    exists st',
      PyStr.for_loop (retraction_body ls)
        (PyStr.enumerate (S (length pre)) suf) st = Some st'
      /\ scan_ok ls (length ls) st'.
Proof.
  induction suf as [|raw suf IH]; intros pre st Hls Hok.
  - exists st. split; [reflexivity|].
    rewrite app_nil_r in Hls. now subst pre.
  - cbn [PyStr.enumerate PyStr.for_loop].
    destruct (retraction_body_ok ls st (S (length pre)) raw)
      as (st1 & -> & Hok1).
    + lia.
    + rewrite Hls. replace (S (length pre) - 1) with (length pre) by lia.
      now rewrite list_lookup_middle.
    + now replace (S (length pre) - 1) with (length pre) by lia.
    + cbn [mbind option_bind].
      destruct (IH (pre ++ [raw]) st1) as (st' & Hloop & Hok').
      * now rewrite <- app_assoc.
      * now rewrite length_app, Nat.add_1_r.
      * rewrite length_app, Nat.add_1_r in Hloop. eauto.
Qed.

Lemma scan_lines_ok (ls : list string) :
  exists st, scan_lines ls = Some st /\ scan_ok ls (length ls) st.
Proof.
  apply (scan_loop_ok ls ls [] scan_start); [reflexivity|].
  split; [discriminate | constructor].
Qed.

(** ** What the grouping pass keeps *)

Lemma stamp_cluster_data (g : list RetractionEvent) :
  map detection_data (stamp_cluster g) = map detection_data g.
Proof. unfold stamp_cluster. rewrite map_map. reflexivity. Qed.

Lemma stamped_data (cs : list (list RetractionEvent)) :
  map detection_data (concat (map stamp_cluster cs))
  = map detection_data (concat cs).
Proof.
  induction cs as [|c cs IH]; [reflexivity|].
  cbn [map concat]. now rewrite !map_app, stamp_cluster_data, IH.
Qed.

Lemma stamp_cluster_recorded (ls : list string) (k : nat)
  (g : list RetractionEvent) :
  Forall (recorded ls k) g -> Forall (recorded ls k) (stamp_cluster g).
Proof.
  unfold stamp_cluster. generalize (round (mean_height g) 3) (length g).
  intros h size. induction 1 as [|r l Hr _ IH]; cbn [map]; constructor; auto.
Qed.

Lemma stamped_recorded (ls : list string) (k : nat)
  (cs : list (list RetractionEvent)) :
  Forall (recorded ls k) (concat cs) ->
  Forall (recorded ls k) (concat (map stamp_cluster cs)).
Proof.
  induction cs as [|c cs IH]; cbn [map concat]; [auto|].
  rewrite !Forall_app. intros [Hc Hcs].
  split; [now apply stamp_cluster_recorded | now apply IH].
Qed.

Lemma chain_clusters_concat (l : list RetractionEvent) :
  concat (chain_clusters l) = l.
Proof. destruct l as [|x l]; [reflexivity | apply (chain_from_concat l [] x)]. Qed.

(** The detector returns a list for every file, and the list is the
    stamped clusters of the sorted events of the loop. *)
Lemma detect_retractions_total (ls : list string) :
  exists st,
    scan_lines ls = Some st
    /\ scan_ok ls (length ls) st
    /\ detect_retractions ls
       = Some (concat (map stamp_cluster
                         (chain_clusters (sort_by r_z_height (emitted st))))).
Proof.
  destruct (scan_lines_ok ls) as (st & Hscan & Hok).
  exists st. split; [exact Hscan|]. split; [exact Hok|].
  unfold detect_retractions. rewrite Hscan. cbn [mbind option_bind].
  apply group_similar_refines.
Qed.

(** C10: parsing succeeds on every file, and every event it returns has
    1 <= start line <= end line <= number of lines, with the two contents
    equal to those lines, stripped.  Grouping touches the height, the flag
    and the size only: the other four fields of the returned events are
    those of the events of the detection loop, taken in height order. *)
Theorem returned_events_keep_detection_data :
  forall p : GCodeParser,
    exists p' st,
      parse p = Some p'
      /\ scan_lines (lines p) = Some st
      /\ Forall (recorded (lines p) (length (lines p))) (get_retractions p')
      /\ map detection_data (get_retractions p')
         = map detection_data (sort_by r_z_height (emitted st))
      /\ Permutation (map detection_data (get_retractions p'))
                     (map detection_data (emitted st)).
Proof.
  intros p. destruct (detect_retractions_total (lines p))
    as (st & Hscan & [_ Hrec] & Hdet).
  eexists. exists st. unfold parse. rewrite Hdet. cbn [mbind option_bind].
  split; [reflexivity|]. split; [exact Hscan|].
  unfold get_retractions. cbn [retractions].
  assert (Hdata : map detection_data
                    (concat (map stamp_cluster
                               (chain_clusters
                                  (sort_by r_z_height (emitted st)))))
                  = map detection_data (sort_by r_z_height (emitted st)))
    by now rewrite stamped_data, chain_clusters_concat.
  split; [|split].
  - apply stamped_recorded. rewrite chain_clusters_concat.
    now rewrite sort_by_perm.
  - exact Hdata.
  - rewrite Hdata. apply Permutation_map, sort_by_perm.
Qed.

(** ** The rise threshold on a file of two lines *)







(** ** Determinism of parse *)

(** C8: [parse] succeeds on every parser object; parsing again the
    object it returns gives that same object, so both accessors return
    the same events after one call and after two; and the result depends
    on the loaded lines only, not on what earlier runs left in the
    object. *)
Theorem parse_is_idempotent :
  (forall p : GCodeParser,
      exists p1,
        parse p = Some p1
        /\ (parse p ≫= parse) = Some p1
        /\ (get_tool_changes <$> (parse p ≫= parse)) = Some (get_tool_changes p1)
        /\ (get_retractions <$> (parse p ≫= parse)) = Some (get_retractions p1))
  /\ (forall (ls : list string) (tcs tcs' : list ToolChangeEvent)
             (rs rs' : list RetractionEvent),
         parse {| lines := ls; tool_changes := tcs; retractions := rs |}
         = parse {| lines := ls; tool_changes := tcs'; retractions := rs' |}).
Proof.
  split; [|reflexivity].
  intros p. destruct (detect_retractions_total (lines p)) as (st & _ & _ & Hdet).
  set (rs := concat (map stamp_cluster
                       (chain_clusters (sort_by r_z_height (emitted st)))))
    in Hdet.
  set (p1 := {| lines := lines p;
                tool_changes := detect_tool_changes (lines p);
                retractions := rs |}).
  assert (Hp : parse p = Some p1)
    by (unfold parse; rewrite Hdet; reflexivity).
  assert (Hp1 : parse p1 = Some p1)
    by (unfold parse; cbn [lines p1]; rewrite Hdet; reflexivity).
  exists p1. rewrite Hp. cbn [mbind option_bind]. rewrite Hp1. auto.
Qed.

(** ** Tool numbers are the captured digits *)

Lemma lang_plus_digit (w : string) :
  Re.lang (Re.Plus Re.digit) w -> w <> "" /\ all_digits w = true.
Proof.
  unfold Re.Plus. intros H.
  inversion H as [| |? ? w1 w2 H1 H2| | | | | |]; subst.
  inversion H1 as [|? c Hc| | | | | | |]; subst.
  apply lang_star_digits in H2. rewrite string_app_cons.
  split; [discriminate|]. cbn [all_digits]. now rewrite Hc.
Qed.

Lemma captures_digits_group : captures_digits (Re.Grp (Re.Plus Re.digit)).
Proof.
  intros s h Hin. cbn [Re.run] in Hin.
  apply in_map_iff in Hin as (h1 & <- & Hh1).
  apply run_sound in Hh1 as [Hl _]. apply lang_plus_digit in Hl.
  exists (Re.consumed h1). now cbn.
Qed.

Lemma captures_digits_seq (r1 r2 : Re.regex) :
  captures_digits r2 -> captures_digits (Re.Seq r1 r2).
Proof.
  intros H2 s h Hin. cbn [Re.run] in Hin.
  apply in_flat_map in Hin as (h1 & _ & Hin).
  apply in_map_iff in Hin as (h2 & <- & Hh2).
  destruct (H2 _ _ Hh2) as (w & Hw & Hne & Hd).
  exists w. cbn [Re.then_hit Re.group1]. now rewrite Hw.
Qed.

Lemma tool_patterns_capture_digits :
  Forall captures_digits Pat.tool_change_patterns.
Proof.
  unfold Pat.tool_change_patterns, Pat.tool_T, Pat.tool_M6, Pat.tool_M06,
    Pat.tool_M61.
  repeat constructor;
    repeat (apply captures_digits_seq); apply captures_digits_group.
Qed.

Lemma first_match_digits (ps : list Re.regex) (s : string) (g : option string) :
  Forall captures_digits ps ->
  first_match ps s = Some g ->
  exists w, g = Some w /\ w <> "" /\ all_digits w = true.
Proof.
  induction 1 as [|p ps Hp _ IH]; cbn [first_match]; [discriminate|].
  destruct (Re.search p s) as [m|] eqn:Hm; [|exact IH].
  intros [= <-]. destruct (search_from_run p s m Hm) as [s' Hin].
  exact (Hp _ _ Hin).
Qed.

Lemma tool_numbers_are_digits (ls : list string) (ev : ToolChangeEvent) :
  In ev (detect_tool_changes ls) ->
  exists w, tc_tool_number ev = Some w /\ w <> "" /\ all_digits w = true.
Proof.
  rewrite detect_tool_changes_flat. intros Hin.
  apply in_flat_map in Hin as ([n raw] & _ & Hin).
  unfold tool_change_body in Hin.
  destruct (is_skipped _); [contradiction|].
  destruct (first_match _ _) as [g|] eqn:Hg; [|contradiction].
  destruct Hin as [<-|[]]. cbn [tc_tool_number].
  exact (first_match_digits _ _ _ tool_patterns_capture_digits Hg).
Qed.

(** C2: the patterns are tried in their fixed order on the comment-free
    line; the first one that is found gives the single event of that line,
    with the text of its group as tool number, and no line gives more than
    one event.  The tool number of every event is a non-empty run of
    digits.  The line "M61 Q5 T3" gives one event for tool "3". *)
Theorem first_pattern_gives_the_only_event :
  (forall (ls : list string) (n : nat) (raw : string)
          (before after : list Re.regex) (p : Re.regex) (m : Re.hit),
      ls !! n = Some raw ->
      is_skipped (PyStr.strip raw) = false ->
      Pat.tool_change_patterns = before ++ p :: after ->
      Forall (fun q => Re.search q (remove_comments (PyStr.strip raw)) = None)
             before ->
      Re.search p (remove_comments (PyStr.strip raw)) = Some m ->
      filter (fun ev => tc_line_number ev = S n) (detect_tool_changes ls)
      = [{| tc_line_number := S n; tc_tool_number := Re.group1 m;
            tc_line_content := PyStr.strip raw |}])
  /\ (forall (ls : list string) (k : nat),
         length (filter (fun ev => tc_line_number ev = k)
                        (detect_tool_changes ls)) <= 1)
  /\ (forall (ls : list string) (ev : ToolChangeEvent),
         In ev (detect_tool_changes ls) ->
         exists w, tc_tool_number ev = Some w /\ w <> "" /\ all_digits w = true)
  /\ detect_tool_changes ["M61 Q5 T3"]
     = [{| tc_line_number := 1; tc_tool_number := Some "3";
           tc_line_content := "M61 Q5 T3" |}].
Proof.
  split; [|split; [|split]].
  - intros ls n raw before after p m Hraw Hskip Hpats Hnone Hp.
    rewrite (events_of_line ls n raw Hraw). unfold tool_change_body.
    rewrite Hskip, Hpats, (first_match_split before after p _ m Hnone Hp).
    reflexivity.
  - apply at_most_one_event_per_line.
  - apply tool_numbers_are_digits.
  - vm_compute. reflexivity.
Qed.

(** The theorem at the line "M61 Q7", which only the fourth pattern
    finds. *)
Lemma first_pattern_gives_the_only_event_witness :
  filter (fun ev => tc_line_number ev = 2)
         (detect_tool_changes ["G1 X1"; "M61 Q7"])
  = [{| tc_line_number := 2; tc_tool_number := Some "7";
        tc_line_content := "M61 Q7" |}].
Proof.
  refine (proj1 first_pattern_gives_the_only_event
            ["G1 X1"; "M61 Q7"] 1 "M61 Q7"
            [Pat.tool_T; Pat.tool_M6; Pat.tool_M06] [] Pat.tool_M61
            (Re.Hit "M61 Q7" (Some "7") "") _ _ _ _ _).
  - reflexivity.
  - reflexivity.
  - reflexivity.
  - repeat constructor.
  - vm_compute. reflexivity.
Defined.

(** * Further properties *)

(** ** Tool changes are reported in line order *)

Lemma tool_changes_from (ls : list string) :
  forall start,
    StronglySorted (fun a b => tc_line_number a < tc_line_number b)
      (flat_map (tool_change_body []) (PyStr.enumerate start ls))
    /\ Forall (fun ev =>
                 start <= tc_line_number ev < start + length ls
                 /\ exists raw, ls !! (tc_line_number ev - start) = Some raw
                                /\ is_skipped (PyStr.strip raw) = false
                                /\ tc_line_content ev = PyStr.strip raw)
              (flat_map (tool_change_body []) (PyStr.enumerate start ls)).
Proof.
  induction ls as [|raw ls IH]; intros start;
    cbn [flat_map PyStr.enumerate].
  - split; constructor.
  - destruct (IH (S start)) as [Hsorted Hall].
    assert (Hall' : Forall (fun ev =>
                 start <= tc_line_number ev < start + length (raw :: ls)
                 /\ exists raw', (raw :: ls) !! (tc_line_number ev - start)
                                 = Some raw'
                                /\ is_skipped (PyStr.strip raw') = false
                                /\ tc_line_content ev = PyStr.strip raw')
              (flat_map (tool_change_body []) (PyStr.enumerate (S start) ls))).
    { eapply Forall_impl; [exact Hall|]. cbn [length].
      intros ev ([Hlo Hhi] & raw' & Hraw' & Hrest).
      split; [lia|]. exists raw'. split; [|exact Hrest].
      replace (tc_line_number ev - start)
        with (S (tc_line_number ev - S start)) by lia.
      exact Hraw'. }
    unfold tool_change_body at 1 3.
    destruct (is_skipped (PyStr.strip raw)) eqn:Hskip;
      [split; [exact Hsorted | exact Hall']|].
    destruct (first_match _ _) as [t|];
      [|split; [exact Hsorted | exact Hall']].
    cbn [app]. split.
    + constructor; [exact Hsorted|].
      eapply Forall_impl; [exact Hall|]. cbn. intros ev ([Hlo _] & _). lia.
    + constructor; [|exact Hall']. cbn [tc_line_number tc_line_content length].
      split; [lia|]. exists raw. rewrite Nat.sub_diag. auto.
Qed.

(** X1: the tool changes come out in strictly increasing line order, and
    each one names an existing command line of the file and carries that
    line, stripped, as its content. *)
Theorem tool_changes_in_line_order (ls : list string) :
  StronglySorted (fun a b => tc_line_number a < tc_line_number b)
    (detect_tool_changes ls)
  /\ Forall (tool_change_in_file ls) (detect_tool_changes ls).
Proof.
  rewrite detect_tool_changes_flat.
  destruct (tool_changes_from ls 1) as [Hsorted Hall].
  split; [exact Hsorted|].
  eapply Forall_impl; [exact Hall|].
  intros ev ([Hlo Hhi] & raw & Hraw & Hrest).
  split; [lia|]. exists raw. auto.
Qed.

(** ** What the comment removal leaves *)

Lemma iterate_dot_head (s : string) :
  forall fuel,
    String.length s <= fuel ->
    all_chars (not_char "010") s = true ->
    exists tl, Re.iterate (Re.run Re.dot) fuel s = Re.Hit s None "" :: tl.
Proof.
  induction s as [|c s IH]; intros fuel Hfuel Hs.
  - destruct fuel; cbn; eauto.
  - destruct fuel as [|fuel]; [cbn in Hfuel; lia|].
    cbn [all_chars] in Hs. apply andb_true_iff in Hs as [Hc Hs].
    destruct (IH fuel) as [tl Htl]; [cbn in Hfuel; lia | exact Hs |].
    cbn [Re.iterate]. unfold Re.dot at 2. cbn [Re.run].
    unfold not_char in Hc. rewrite Ascii.eqb_sym in Hc. rewrite Hc.
    cbn [flat_map Re.consumed Re.rest PyStr.is_empty]. rewrite Htl.
    cbn [map app]. eexists. reflexivity.
Qed.

Lemma remove_semicolon_from (s : string) :
  forall fuel,
    String.length s < fuel ->
    all_chars (not_char "010") s = true ->
    Re.remove_from fuel Pat.semicolon_comment s = before_semicolon s.
Proof.
  induction s as [|c s IH]; intros fuel Hfuel Hs.
  - destruct fuel; reflexivity.
  - destruct fuel as [|fuel]; [lia|].
    cbn [all_chars] in Hs. apply andb_true_iff in Hs as [Hc Hs].
    cbn [Re.remove_from before_semicolon].
    unfold Pat.semicolon_comment, Re.lit. cbn [Re.run].
    destruct (Ascii.eqb ";" c) eqn:Hsemi.
    + destruct (iterate_dot_head s (String.length s)) as [tl Htl];
        [lia | exact Hs |].
      cbn [flat_map Re.rest]. rewrite Htl. cbn [map app].
      change (Re.consumed
                (Re.then_hit (Re.Hit (String c "") None s)
                             (Re.Hit s None "")))
        with (String c s).
      change (Re.rest
                (Re.then_hit (Re.Hit (String c "") None s)
                             (Re.Hit s None "")))
        with "".
      cbn [PyStr.is_empty]. destruct fuel; reflexivity.
    + cbn [flat_map]. fold Pat.semicolon_comment.
      fold (Re.lit ";"). fold Pat.semicolon_comment.
      rewrite IH; [reflexivity | cbn in Hfuel; lia | exact Hs].
Qed.

Lemma remove_from_keeps (p : ascii -> bool) (r : Re.regex) (fuel : nat) :
  forall s, all_chars p s = true -> all_chars p (Re.remove_from fuel r s) = true.
Proof.
  assert (Happ : forall a b, all_chars p (a +:+ b) = true ->
                             all_chars p b = true).
  { induction a as [|c a IH]; intros b; [auto|].
    rewrite string_app_cons. cbn [all_chars].
    intros H. apply andb_true_iff in H as [_ H]. now apply IH. }
  induction fuel as [|fuel IH]; intros s Hs; [exact Hs|].
  cbn [Re.remove_from].
  assert (Hkeep : all_chars p
                    match s with
                    | "" => ""
                    | String c s' => String c (Re.remove_from fuel r s')
                    end = true).
  { destruct s as [|c s]; [reflexivity|]. cbn [all_chars] in *.
    apply andb_true_iff in Hs as [-> Hs]. now apply IH. }
  destruct (Re.run r s) as [|h hs] eqn:Hrun; [exact Hkeep|].
  destruct (PyStr.is_empty (Re.consumed h)); [exact Hkeep|].
  apply IH. destruct (run_sound r s h) as [_ Hsplit].
  { rewrite Hrun. now left. }
  rewrite Hsplit in Hs. now apply Happ in Hs.
Qed.

Lemma remove_paren_none (s : string) :
  forall fuel,
    all_chars (not_char "(") s = true ->
    Re.remove_from fuel Pat.paren_comment s = s.
Proof.
  induction s as [|c s IH]; intros fuel Hs.
  - destruct fuel; reflexivity.
  - destruct fuel as [|fuel]; [reflexivity|].
    cbn [all_chars] in Hs. apply andb_true_iff in Hs as [Hc Hs].
    cbn [Re.remove_from]. unfold Pat.paren_comment, Re.lit at 1.
    cbn [Re.run]. unfold not_char in Hc. apply negb_true_iff in Hc.
    rewrite Hc. cbn [flat_map]. fold (Re.lit "("). fold Pat.paren_comment.
    now rewrite IH.
Qed.

(** X2: on a line without a line break, the two substitutions leave the
    text that precedes the first semicolon still present once the
    parenthesised comments are gone; a line without an opening
    parenthesis is simply cut at its first semicolon. *)
Theorem comment_removal_cuts_at_semicolon (line : string) :
  all_chars (not_char "010") line = true ->
  remove_comments line = before_semicolon (Re.remove Pat.paren_comment line)
  /\ (all_chars (not_char "(") line = true ->
      remove_comments line = before_semicolon line).
Proof.
  intros Hline.
  assert (H : remove_comments line
              = before_semicolon (Re.remove Pat.paren_comment line)).
  { unfold remove_comments, Re.remove at 1.
    apply remove_semicolon_from; [lia|].
    now apply remove_from_keeps. }
  split; [exact H|].
  intros Hparen. rewrite H. unfold Re.remove.
  now rewrite remove_paren_none.
Qed.

(** The theorem on the line of the comment-handling example. *)
Lemma comment_removal_cuts_at_semicolon_witness :
  remove_comments "G1 Z1 ; retract (ignored T9)"
  = before_semicolon
      (Re.remove Pat.paren_comment "G1 Z1 ; retract (ignored T9)")
  /\ (all_chars (not_char "(") "G1 Z1 ; retract (ignored T9)" = true ->
      remove_comments "G1 Z1 ; retract (ignored T9)"
      = before_semicolon "G1 Z1 ; retract (ignored T9)").
Proof.
  apply (comment_removal_cuts_at_semicolon "G1 Z1 ; retract (ignored T9)").
  reflexivity.
Defined.

(** ** Axes that a line does not name keep their value *)

Lemma all_chars_app (p : ascii -> bool) (a b : string) :
  all_chars p (a +:+ b) = all_chars p a && all_chars p b.
Proof.
  induction a as [|c a IH]; [reflexivity|].
  rewrite string_app_cons. cbn [all_chars]. now rewrite IH, andb_assoc.
Qed.

Lemma search_keeps (p : ascii -> bool) (r : Re.regex) (s : string) (h : Re.hit) :
  all_chars p s = true ->
  Re.search r s = Some h ->
  all_chars p (Re.consumed h) = true /\ all_chars p (Re.rest h) = true.
Proof.
  induction s as [|c s IH]; intros Hs; cbn [Re.search].
  - destruct (Re.run r "") as [|h0 l] eqn:E; [discriminate|].
    intros [= <-]. destruct (run_sound r "" h0) as [_ Hsplit];
      [rewrite E; now left|].
    rewrite Hsplit, all_chars_app in Hs. now apply andb_true_iff in Hs.
  - destruct (Re.run r (String c s)) as [|h0 l] eqn:E.
    + cbn [all_chars] in Hs. apply andb_true_iff in Hs as [_ Hs]. now apply IH.
    + intros [= <-]. destruct (run_sound r (String c s) h0) as [_ Hsplit];
        [rewrite E; now left|].
      rewrite Hsplit, all_chars_app in Hs. now apply andb_true_iff in Hs.
Qed.

Lemma finditer_keeps (p : ascii -> bool) (r : Re.regex) (fuel : nat) :
  forall s,
    all_chars p s = true ->
    Forall (fun h => all_chars p (Re.consumed h) = true)
           (Re.finditer_from fuel r s).
Proof.
  induction fuel as [|fuel IH]; intros s Hs; cbn [Re.finditer_from].
  - constructor.
  - destruct (Re.search r s) as [h|] eqn:Hh; [|constructor].
    destruct (search_keeps p r s h Hs Hh) as [Hc Hr].
    constructor; [exact Hc|].
    destruct (PyStr.is_empty _); [|now apply IH].
    destruct (Re.rest h) as [|c s'] eqn:E; [constructor|].
    apply IH. cbn [all_chars] in Hr. now apply andb_true_iff in Hr.
Qed.

Lemma set_axis_other (axis a : ascii) (v : float) (p : Position) :
  In axis ["X"; "Y"; "Z"]%char ->
  Ascii.eqb a axis = false ->
  axis_value axis (set_axis a v p) = axis_value axis p.
Proof.
  intros Haxis Hne. unfold set_axis.
  destruct Haxis as [<-|[<-|[<-|[]]]]; rewrite ?Hne;
    destruct (Ascii.eqb a "X") eqn:Hx; try discriminate;
    destruct (Ascii.eqb a "Y") eqn:Hy; try discriminate;
    destruct (Ascii.eqb a "Z") eqn:Hz; try discriminate; reflexivity.
Qed.

Lemma assign_matches_keep (axis : ascii) (hs : list Re.hit) :
  In axis ["X"; "Y"; "Z"]%char ->
  Forall (fun h => all_chars (not_axis axis) (Re.consumed h) = true) hs ->
  forall p p',
    PyStr.for_loop assign_match hs p = Some p' ->
    axis_value axis p' = axis_value axis p.
Proof.
  intros Haxis. induction 1 as [|h hs Hh _ IH]; intros p p';
    cbn [PyStr.for_loop].
  - now intros [= <-].
  - destruct (assign_match p h) as [p1|] eqn:Hassign; [|discriminate].
    cbn [mbind option_bind]. intros Hloop. rewrite (IH _ _ Hloop).
    unfold assign_match in Hassign.
    destruct (Re.consumed h) as [|c w]; [discriminate|].
    destruct (Re.group1 h) as [text|]; [|discriminate].
    cbn [mbind option_bind] in Hassign.
    destruct (of_string text) as [value|]; [|discriminate].
    cbn [mbind option_bind] in Hassign. injection Hassign as <-.
    apply set_axis_other; [exact Haxis|].
    cbn [all_chars] in Hh. apply andb_true_iff in Hh as [Hc _].
    unfold not_axis in Hc. now apply negb_true_iff in Hc.
Qed.

(** X3: reading the coordinates of a command never fails, and an axis
    whose letter does not occur in the command, in either case, keeps
    the value it had. *)
Theorem position_is_modal (p : Position) (clean_line : string) :
  exists p',
    update_position p clean_line = Some p'
    /\ forall axis,
         In axis ["X"; "Y"; "Z"]%char ->
         all_chars (not_axis axis) clean_line = true ->
         axis_value axis p' = axis_value axis p.
Proof.
  destruct (update_position_total p clean_line) as [p' Hp'].
  exists p'. split; [exact Hp'|]. intros axis Haxis Hline.
  apply (assign_matches_keep axis
           (Re.finditer Pat.position_pattern clean_line) Haxis);
    [|exact Hp'].
  now apply finditer_keeps.
Qed.

(** The theorem on a command that names X and Y only. *)
Lemma position_is_modal_witness :
  exists p',
    update_position {| pos_X := fl 1 0; pos_Y := fl 2 0; pos_Z := fl 3 0 |}
      "G1 X7 y8"
    = Some p'
    /\ axis_value "Z" p' = fl 3 0.
Proof.
  destruct (position_is_modal
              {| pos_X := fl 1 0; pos_Y := fl 2 0; pos_Z := fl 3 0 |}
              "G1 X7 y8") as (p' & Hp' & Hkeep).
  exists p'. split; [exact Hp'|].
  apply (Hkeep "Z"%char); [right; right; left; reflexivity | reflexivity].
Defined.

(** ** Files on which nothing can be detected *)

Lemma note_rise_emitted (n : nat) (z : bool) (pos : Position) (st : Scan) :
  emitted (note_rise n z pos st) = emitted st.
Proof.
  unfold note_rise. destruct (_ && _); [|reflexivity].
  now destruct (negb _).
Qed.

Lemma no_rapid_loop (ls : list string) (items : list (nat * string)) :
  Forall (fun item => not_rapid_line item.2 = true) items ->
  forall st st',
    PyStr.for_loop (retraction_body ls) items st = Some st' ->
    emitted st' = emitted st.
Proof.
  induction 1 as [|[n raw] items Hitem _ IH]; intros st st';
    cbn [PyStr.for_loop].
  - now intros [= <-].
  - destruct (retraction_body ls st (n, raw)) as [st1|] eqn:Hbody;
      [|discriminate].
    cbn [mbind option_bind]. intros Hloop. rewrite (IH _ _ Hloop).
    unfold not_rapid_line in Hitem. cbn [snd] in Hitem.
    destruct (is_skipped (PyStr.strip raw)) eqn:Hskip.
    + rewrite (retraction_body_skip _ _ _ _ Hskip) in Hbody.
      now injection Hbody as <-.
    + cbn [orb] in Hitem. apply negb_true_iff in Hitem.
      destruct (retraction_body_command _ _ _ _ _ Hskip Hbody)
        as (pos & st2 & _ & Hst2 & ->).
      unfold note_rapid in Hst2. rewrite Hitem, andb_false_r in Hst2.
      injection Hst2 as <-. scan_fields. apply note_rise_emitted.
Qed.

Lemma no_z_loop (ls : list string) (items : list (nat * string)) :
  Forall (fun item => no_z_command item.2 = true) items ->
  forall st st',
    in_retraction st = false ->
    PyStr.for_loop (retraction_body ls) items st = Some st' ->
    emitted st' = emitted st.
Proof.
  induction 1 as [|[n raw] items Hitem _ IH]; intros st st' Hnormal;
    cbn [PyStr.for_loop].
  - now intros [= <-].
  - destruct (retraction_body ls st (n, raw)) as [st1|] eqn:Hbody;
      [|discriminate].
    cbn [mbind option_bind]. intros Hloop.
    unfold no_z_command in Hitem. cbn [snd] in Hitem.
    destruct (is_skipped (PyStr.strip raw)) eqn:Hskip.
    + rewrite (retraction_body_skip _ _ _ _ Hskip) in Hbody.
      injection Hbody as <-. now apply IH.
    + cbn [orb] in Hitem. apply negb_true_iff in Hitem.
      destruct (retraction_body_command _ _ _ _ _ Hskip Hbody)
        as (pos & st2 & _ & Hst2 & ->).
      unfold note_rise in Hst2. rewrite Hitem in Hst2. cbn [andb] in Hst2.
      unfold note_rapid in Hst2. rewrite Hnormal in Hst2.
      cbn [andb] in Hst2. injection Hst2 as <-.
      apply IH in Hloop; [exact Hloop | exact Hnormal].
Qed.

Lemma Forall_enumerate {A} (P : A -> Prop) (l : list A) :
  Forall P l -> forall k, Forall (fun item => P item.2) (PyStr.enumerate k l).
Proof.
  induction 1 as [|x l Hx _ IH]; intros k; cbn [PyStr.enumerate];
    constructor; auto.
Qed.

(** X4: a file in which no command is classified as rapid gives no
    retraction, and so does a file in which no command holds a Z-axis
    command. *)
Theorem nothing_to_detect (ls : list string) :
  Forall (fun raw => not_rapid_line raw = true) ls
  \/ Forall (fun raw => no_z_command raw = true) ls ->
  detect_retractions ls = Some [].
Proof.
  intros Hls. destruct (scan_lines_ok ls) as (st & Hscan & _).
  assert (Hem : emitted st = []).
  { unfold scan_lines in Hscan. destruct Hls as [Hls|Hls].
    - apply (no_rapid_loop ls _ (Forall_enumerate _ ls Hls 1) _ _ Hscan).
    - apply (no_z_loop ls _ (Forall_enumerate _ ls Hls 1) scan_start st
               eq_refl Hscan). }
  unfold detect_retractions. rewrite Hscan. cbn [mbind option_bind].
  now rewrite Hem.
Qed.

(** The theorem on a file of feed moves. *)
Lemma nothing_to_detect_witness :
  detect_retractions ["G1 Z5"; "G1 X10 Y10"; "; G0 in a comment"; "G1 Z1"]
  = Some [].
Proof.
  apply nothing_to_detect. left. repeat constructor.
Defined.

(** ** Every event is justified by two lines of the file *)

Lemma retraction_body_justified (ls : list string) (st st' : Scan) (n : nat)
  (raw : string) :
  1 <= n ->
  ls !! (n - 1) = Some raw ->
  retraction_body ls st (n, raw) = Some st' ->
  lifted_justified ls st -> lifted_justified ls st'.
Proof.
  intros Hn Hraw Hbody [Hstart Hem].
  destruct (is_skipped (PyStr.strip raw)) eqn:Hskip.
  { rewrite (retraction_body_skip _ _ _ _ Hskip) in Hbody.
    injection Hbody as <-. split; assumption. }
  destruct (retraction_body_command _ _ _ _ _ Hskip Hbody)
    as (pos & st2 & _ & Hst2 & ->).
  set (st1 := note_rise n (is_z_movement (command_text raw)) pos st) in *.
  assert (Hst : lifted_justified ls st) by (split; assumption).
  assert (H1 : lifted_justified ls st1).
  { subst st1. unfold note_rise.
    destruct (is_z_movement (command_text raw)) eqn:Hz; cbn [andb];
      [|exact Hst].
    destruct (ltb _ _); [|exact Hst].
    destruct (negb (in_retraction st)); [|exact Hst].
    split; [|exact Hem]. scan_fields. intros _.
    split; [exact Hn|]. exists raw. auto. }
  clearbody st1. destruct H1 as [Hstart1 Hem1].
  unfold note_rapid in Hst2.
  destruct (in_retraction st1) eqn:Hin1; cbn [andb] in Hst2.
  - destruct (is_rapid (command_text raw)) eqn:Hrapid.
    + destruct (PyStr.getitem _ _) as [start_raw|]; [|discriminate].
      cbn [mbind option_bind] in Hst2. injection Hst2 as <-. scan_fields.
      split.
      * intros _. now apply Hstart1.
      * apply Forall_app. split; [exact Hem1|].
        constructor; [|constructor]. split; cbn [r_line_number r_end_line].
        -- now apply Hstart1.
        -- split; [exact Hn|]. exists raw. auto.
    + injection Hst2 as <-. scan_fields.
      split; [intros _; now apply Hstart1 | exact Hem1].
  - injection Hst2 as <-. scan_fields. split; [|exact Hem1].
    rewrite Hin1. discriminate.
Qed.

Lemma scan_loop_justified (ls suf : list string) :
  forall (pre : list string) (st st' : Scan),
    ls = pre ++ suf ->
    PyStr.for_loop (retraction_body ls)
      (PyStr.enumerate (S (length pre)) suf) st = Some st' ->
    lifted_justified ls st -> lifted_justified ls st'.
Proof.
  induction suf as [|raw suf IH]; intros pre st st' Hls;
    cbn [PyStr.enumerate PyStr.for_loop].
  - now intros [= <-].
  - destruct (retraction_body ls st (S (length pre), raw)) as [st1|] eqn:Hbody;
      [|discriminate].
    cbn [mbind option_bind]. intros Hloop Hst.
    apply (IH (pre ++ [raw]) st1 st').
    + now rewrite <- app_assoc.
    + now rewrite length_app, Nat.add_1_r.
    + apply (retraction_body_justified ls st st1 (S (length pre)) raw);
        [lia | | exact Hbody | exact Hst].
      rewrite Hls. replace (S (length pre) - 1) with (length pre) by lia.
      now rewrite list_lookup_middle.
Qed.

Lemma stamped_justified (ls : list string) (cs : list (list RetractionEvent)) :
  Forall (justified ls) (concat cs) ->
  Forall (justified ls) (concat (map stamp_cluster cs)).
Proof.
  induction cs as [|c cs IH]; cbn [map concat]; [auto|].
  rewrite !Forall_app. intros [Hc Hcs]. split; [|now apply IH].
  unfold stamp_cluster. generalize (round (mean_height c) 3) (length c).
  intros h size. clear -Hc.
  induction Hc as [|r l Hr _ IH]; cbn [map]; constructor; auto.
Qed.

(** X5: every retraction that the detector returns starts on a command
    line that holds a Z-axis command and ends on a command line that is
    classified as rapid. *)
Theorem returned_events_are_justified (ls : list string) :
  exists rs, detect_retractions ls = Some rs /\ Forall (justified ls) rs.
Proof.
  destruct (detect_retractions_total ls) as (st & Hscan & _ & Hdet).
  eexists. split; [exact Hdet|].
  apply stamped_justified. rewrite chain_clusters_concat, sort_by_perm.
  apply (scan_loop_justified ls ls [] scan_start st eq_refl Hscan).
  split; [discriminate | constructor].
Qed.

(** ** The height dictionary *)

Lemma add_to_group_keys (k h : float) (r : RetractionEvent)
  (groups : list (float * list RetractionEvent)) :
  eqb k h = false ->
  Forall (fun g' => eqb k g'.1 = false) groups ->
  Forall (fun g' => eqb k g'.1 = false) (add_to_group h r groups).
Proof.
  intros Hkh.
  induction 1 as [|[k' m'] groups Hk' Hgroups IH]; cbn [add_to_group].
  - constructor; [exact Hkh | constructor].
  - cbn [fst] in Hk'. destruct (eqb k' h); constructor; auto.
Qed.

Lemma add_to_group_buckets (r : RetractionEvent)
  (groups : list (float * list RetractionEvent)) :
  Forall bucket_ok groups -> distinct_keys groups ->
  Forall bucket_ok (add_to_group (r_z_height r) r groups)
  /\ distinct_keys (add_to_group (r_z_height r) r groups)
  /\ Permutation (concat (map snd (add_to_group (r_z_height r) r groups)))
                 (r :: concat (map snd groups)).
Proof.
  intros Hok Hkeys.
  induction groups as [|[k members] groups IH]; cbn [add_to_group].
  - split; [|split].
    + constructor; [|constructor]. exists r, []. cbn. auto.
    + cbn. auto.
    + reflexivity.
  - apply Forall_cons_1 in Hok as [Hg Hok]. destruct Hkeys as [Hk Hkeys].
    destruct (IH Hok Hkeys) as (IHok & IHkeys & IHperm).
    destruct (eqb k (r_z_height r)) eqn:Hkh.
    + split; [|split].
      * constructor; [|exact Hok].
        destruct Hg as (first & others & Hm & Hkey & Hrest). cbn [fst snd] in *.
        exists first, (others ++ [r]). rewrite Hm. cbn [fst snd].
        split; [reflexivity|]. split; [exact Hkey|].
        apply Forall_app. split; [exact Hrest|].
        constructor; [exact Hkh | constructor].
      * split; assumption.
      * cbn [map concat snd]. rewrite <- app_assoc. cbn [app].
        symmetry. apply Permutation_middle.
    + split; [|split].
      * constructor; assumption.
      * split; [|exact IHkeys]. cbn [fst].
        now apply add_to_group_keys.
      * cbn [map concat snd]. rewrite IHperm. symmetry.
        apply Permutation_middle.
Qed.

Lemma fold_groups_buckets (rs : list RetractionEvent) :
  forall groups,
    Forall bucket_ok groups -> distinct_keys groups ->
    let groups' :=
      fold_left (fun groups r => add_to_group (r_z_height r) r groups)
                rs groups in
    Forall bucket_ok groups' /\ distinct_keys groups'
    /\ Permutation (concat (map snd groups'))
                   (concat (map snd groups) ++ rs).
Proof.
  induction rs as [|r rs IH]; intros groups Hok Hkeys; cbn [fold_left].
  - rewrite app_nil_r. auto.
  - destruct (add_to_group_buckets r groups Hok Hkeys)
      as (Hok1 & Hkeys1 & Hperm1).
    destruct (IH _ Hok1 Hkeys1) as (Hok' & Hkeys' & Hperm').
    cbn zeta in *. split; [exact Hok'|]. split; [exact Hkeys'|].
    rewrite Hperm', Hperm1. cbn [app].
    now rewrite Permutation_middle.
Qed.

(** X6: the height dictionary that [summarize] builds splits the
    retractions into buckets: every retraction is in exactly one bucket
    (the buckets together are a rearrangement of the list), a bucket is
    keyed by the height of its first member and holds only retractions
    whose height equals the key, and no two keys are equal. *)
Theorem height_buckets_partition (rs : list RetractionEvent) :
  Permutation (concat (map snd (group_by_height rs))) rs
  /\ Forall bucket_ok (group_by_height rs)
  /\ distinct_keys (group_by_height rs).
Proof.
  destruct (fold_groups_buckets rs [] (List.Forall_nil _) I)
    as (Hok & Hkeys & Hperm).
  cbn zeta in *. cbn [map concat app] in Hperm. auto.
Qed.

(** ** The retraction table agrees with the summary *)

Lemma add_count_groups (h : float) (r : RetractionEvent)
  (groups : list (float * list RetractionEvent)) :
  add_count h (map (fun g => (g.1, length g.2)) groups)
  = map (fun g => (g.1, length g.2)) (add_to_group h r groups).
Proof.
  induction groups as [|[k members] groups IH];
    cbn [add_count add_to_group map fst snd]; [reflexivity|].
  destruct (eqb k h); cbn [map fst snd].
  - now rewrite length_app.
  - now rewrite IH.
Qed.

Lemma count_heights_groups (rs : list RetractionEvent) :
  count_heights rs = map (fun g => (g.1, length g.2)) (group_by_height rs).
Proof.
  unfold count_heights, group_by_height.
  change (@nil (float * nat))
    with (map (fun g : float * list RetractionEvent => (g.1, length g.2)) []).
  generalize (@nil (float * list RetractionEvent)).
  induction rs as [|r rs IH]; intros groups; cbn [fold_left]; [reflexivity|].
  now rewrite (add_count_groups _ r), IH.
Qed.

Lemma most_from_largest {A} (items : list (float * list A)) :
  forall best,
    most_from (best.1, length best.2)
      (map (fun g => (g.1, length g.2)) items)
    = ((largest_from best items).1, length (largest_from best items).2).
Proof.
  induction items as [|item items IH]; intros best;
    cbn [most_from largest_from map]; [reflexivity|].
  cbn [snd]. destruct (length best.2 <? length item.2)%nat; apply IH.
Qed.

Lemma most_common_is_primary_group (rs : list RetractionEvent) :
  most_common rs = (fun g => (g.1, length g.2)) <$> primary_group rs
  /\ (most_common rs = None <-> rs = []).
Proof.
  unfold most_common, primary_group. rewrite count_heights_groups.
  destruct rs as [|r rs]; [split; [reflexivity | tauto]|].
  destruct (fold_groups_nonempty (r :: rs) [] (List.Forall_nil _))
    as (_ & Hne & _).
  cbn zeta in Hne. specialize (Hne ltac:(discriminate)).
  fold (group_by_height (r :: rs)) in Hne.
  destruct (group_by_height (r :: rs)) as [|first others]; [contradiction|].
  cbn [map fmap option_fmap option_map].
  rewrite (most_from_largest others first).
  split; [reflexivity | split; discriminate].
Qed.

(** The bucket named in the last three lines of the retraction report is
    [primary_group]. *)
Lemma retraction_lines_primary (r : RetractionEvent)
  (rs : list RetractionEvent) :
  exists g per_height,
    primary_group (r :: rs) = Some g
    /\ retraction_lines (r :: rs)
       = Some (per_height
               ++ [nl +:+ "Primary Retraction Height: "
                     +:+ format_fixed g.1 3;
                   "  Used in " +:+ pretty (length g.2)
                     +:+ " out of " +:+ pretty (length (r :: rs))
                     +:+ " retractions";
                   "  ("
                     +:+ format_fixed
                           (mul (of_ratio false (N.of_nat (length g.2))
                                   (Pos.of_nat (length (r :: rs))))
                                (of_nat 100)) 1
                     +:+ "% of all retractions)"]).
Proof.
  unfold retraction_lines, primary_group, group_by_height.
  destruct (fold_groups_nonempty (r :: rs) [] (List.Forall_nil _))
    as (Hall & Hne & _).
  cbn zeta in *. specialize (Hne ltac:(discriminate)).
  set (groups := fold_left _ (r :: rs) []) in *.
  destruct (all_height_lines_total (sort_by fst groups)) as [per_height Hper].
  { now rewrite sort_by_perm. }
  rewrite Hper. cbn [mbind option_bind].
  destruct groups as [|first others]; [contradiction|].
  exists (largest_from first others), per_height.
  split; [reflexivity|].
  cbn [primary_lines int_truediv length mbind option_bind]. reflexivity.
Qed.

(** X7: when there are retractions, the SUMMARY row of the retraction
    table and the text of [summarize] name the same height and the same
    member count: the row reads "Most common: h" and "Found n
    occurrences", the text ends with "Primary Retraction Height: h",
    "Used in n out of ..." and the percentage of n.  Without
    retractions there is no SUMMARY row, and only then. *)
Theorem table_summary_matches_primary :
  (forall (ls : list string) (tcs : list ToolChangeEvent)
          (r : RetractionEvent) (rs : list RetractionEvent),
      exists h n before,
        most_common (r :: rs) = Some (h, n)
        /\ summary_row (r :: rs)
           = Some ("SUMMARY", "Most common: " +:+ format_fixed h 3,
                   "Found " +:+ pretty n +:+ " occurrences", "---")
        /\ summarize
             {| lines := ls; tool_changes := tcs; retractions := r :: rs |}
           = Some (PyStr.join nl
                     (before
                      ++ [nl +:+ "Primary Retraction Height: "
                            +:+ format_fixed h 3;
                          "  Used in " +:+ pretty n
                            +:+ " out of " +:+ pretty (length (r :: rs))
                            +:+ " retractions";
                          "  ("
                            +:+ format_fixed
                                  (mul (of_ratio false (N.of_nat n)
                                          (Pos.of_nat (length (r :: rs))))
                                       (of_nat 100)) 1
                            +:+ "% of all retractions)"])))
  /\ (forall rs : list RetractionEvent, summary_row rs = None <-> rs = []).
Proof.
  split.
  - intros ls tcs r rs.
    destruct (retraction_lines_primary r rs) as (g & per_height & Hg & Hlines).
    destruct (most_common_is_primary_group (r :: rs)) as [Hmost _].
    rewrite Hg in Hmost. cbn [fmap option_fmap option_map] in Hmost.
    exists g.1, (length g.2). eexists.
    split; [exact Hmost|]. split.
    + unfold summary_row. now rewrite Hmost.
    + apply summarize_joins. unfold summary_lines.
      cbn [tool_changes retractions]. rewrite Hlines.
      cbn [mbind option_bind]. rewrite !app_assoc. reflexivity.
  - intros rs. destruct (most_common_is_primary_group rs) as [_ Hnone].
    unfold summary_row. rewrite <- Hnone.
    destruct (most_common rs); cbn [fmap option_fmap option_map];
      split; intros; congruence.
Qed.

(** ** Groups in the returned list *)

Lemma stamp_cluster_block (c : list RetractionEvent) :
  c <> [] -> group_block (stamp_cluster c).
Proof.
  intros Hc. unfold group_block.
  assert (Hlen : length (stamp_cluster c) = length c)
    by (unfold stamp_cluster; apply length_map).
  split; [destruct c; [contradiction | discriminate]|].
  exists (round (mean_height c) 3). rewrite Hlen.
  unfold stamp_cluster. apply Forall_map, Forall_forall. intros r _.
  unfold retraction_row. cbn. auto.
Qed.

Lemma chain_clusters_nonempty (l : list RetractionEvent) :
  Forall (fun c => c <> []) (chain_clusters l).
Proof.
  destruct l as [|x l]; [constructor|]. cbn [chain_clusters].
  eapply Forall_impl; [apply (chain_from_chained l [] x); exact I|].
  now intros c [Hc _].
Qed.

(** X8: the list that the detector returns is a sequence of blocks, one
    per group; every member of a block is flagged as grouped, carries the
    number of members of the block as group size and the same height as
    the other members, and its table cell shows that height with the
    note "(Group of n)". *)
Theorem returned_events_come_in_blocks (ls : list string) :
  exists blocks,
    detect_retractions ls = Some (concat blocks)
    /\ Forall group_block blocks.
Proof.
  destruct (detect_retractions_total ls) as (st & _ & _ & Hdet).
  eexists. split; [exact Hdet|].
  apply Forall_map.
  eapply Forall_impl; [apply chain_clusters_nonempty|].
  intros c Hc. now apply stamp_cluster_block.
Qed.

(** ** The path walk *)

Lemma axis_hit_readable (axis : ascii) (s : string) (m : Re.hit) :
  Re.search (Pat.axis_pattern axis) s = Some m ->
  exists text value, Re.group1 m = Some text /\ of_string text = Some value.
Proof.
  intros Hm. destruct (search_from_run _ _ _ Hm) as [s' Hin].
  unfold Pat.axis_pattern in Hin. cbn [Re.run] in Hin.
  apply in_flat_map in Hin as (h1 & _ & Hin).
  apply in_map_iff in Hin as (h2 & <- & Hh2).
  apply in_map_iff in Hh2 as (h3 & <- & Hh3).
  apply run_sound in Hh3 as [Hnum _].
  destruct (number_readable _ Hnum) as [value Hvalue].
  exists (Re.consumed h3), value. now cbn.
Qed.

Lemma read_axis_total (line : string) (axis : ascii) (p : Position) :
  is_Some (read_axis line axis p).
Proof.
  unfold read_axis.
  destruct (Re.search (Pat.axis_pattern axis) line) as [m|] eqn:Hm; [|eauto].
  destruct (axis_hit_readable _ _ _ Hm) as (text & value & -> & Hv).
  cbn [mbind option_bind]. rewrite Hv. cbn. eauto.
Qed.

Lemma read_axes_total (line : string) (p : Position) :
  is_Some (read_axes line p).
Proof.
  unfold read_axes.
  destruct (read_axis_total line "X" p) as [p1 ->]. cbn [mbind option_bind].
  destruct (read_axis_total line "Y" p1) as [p2 ->]. cbn [mbind option_bind].
  apply read_axis_total.
Qed.

Lemma flush_path_lookup (tool : option string) (path : list (list float))
  (paths : gmap string (list (list float))) (t : string) :
  (forall t0, tool = Some t0 -> path <> []) ->
  (is_Some (flush_path tool path paths !! t)
   <-> is_Some (paths !! t) \/ tool = Some t).
Proof.
  intros Hpath. unfold flush_path.
  destruct tool as [t0|].
  - destruct path as [|pt path]; [now destruct (Hpath t0)|].
    destruct (decide (t0 = t)) as [->|Hne].
    + rewrite lookup_insert_eq. split; [now right | eauto].
    + rewrite lookup_insert_ne by exact Hne.
      split; [now left | intros [H|[= H]]; [exact H | contradiction]].
  - split; [now left | intros [H|[=]]; exact H].
Qed.

Lemma flush_path_nonempty (tool : option string) (path : list (list float))
  (paths : gmap string (list (list float))) :
  (forall t p, paths !! t = Some p -> p <> []) ->
  forall t p, flush_path tool path paths !! t = Some p -> p <> [].
Proof.
  intros Hpaths t p. unfold flush_path.
  destruct tool as [t0|]; [|apply Hpaths].
  destruct path as [|pt path]; [apply Hpaths|].
  destruct (decide (t0 = t)) as [->|Hne].
  - rewrite lookup_insert_eq. intros [= <-].
    destruct (default [] (paths !! t)); discriminate.
  - rewrite lookup_insert_ne by exact Hne. apply Hpaths.
Qed.

(** What one round of the path walk does: nothing on a comment or empty
    line; on a command line either the pending tool change is taken and
    a new path starts with the point of the line, or the point joins the
    current path. *)
Lemma path_body_cases (tcs : list ToolChangeEvent) (st : PathWalk) (i : nat)
  (raw : string) :
  exists st',
    path_body tcs st (i, raw) = Some st'
    /\ (is_skipped (PyStr.strip raw) = true /\ st' = st
        \/ is_skipped (PyStr.strip raw) = false
           /\ exists pt,
               (exists tc,
                   tcs !! tc_idx st = Some tc
                   /\ i + 1 = tc_line_number tc
                   /\ tool_paths st'
                      = flush_path (current_tool st) (current_path st)
                          (tool_paths st)
                   /\ current_tool st' = tc_tool_number tc
                   /\ current_path st' = [pt]
                   /\ tc_idx st' = tc_idx st + 1)
               \/ ((forall tc, tcs !! tc_idx st = Some tc ->
                               i + 1 <> tc_line_number tc)
                   /\ tool_paths st' = tool_paths st
                   /\ current_tool st' = current_tool st
                   /\ current_path st' = current_path st ++ [pt]
                   /\ tc_idx st' = tc_idx st)).
Proof.
  unfold path_body.
  destruct (is_skipped (PyStr.strip raw)) eqn:Hskip; [eauto|].
  destruct (tcs !! tc_idx st) as [tc|] eqn:Htc.
  - destruct (Nat.eqb_spec (i + 1) (tc_line_number tc)) as [Heq|Hne].
    + cbn [walk_pos].
      destruct (read_axes_total (PyStr.strip raw) (walk_pos st)) as [pos ->].
      cbn [mbind option_bind]. eexists. split; [reflexivity|].
      right. split; [reflexivity|]. exists (point pos). left.
      exists tc. cbn. repeat split; auto.
    + destruct (read_axes_total (PyStr.strip raw) (walk_pos st)) as [pos ->].
      cbn [mbind option_bind]. eexists. split; [reflexivity|].
      right. split; [reflexivity|]. exists (point pos). right.
      cbn. repeat split. intros tc' [= <-]. exact Hne.
  - destruct (read_axes_total (PyStr.strip raw) (walk_pos st)) as [pos ->].
    cbn [mbind option_bind]. eexists. split; [reflexivity|].
    right. split; [reflexivity|]. exists (point pos). right.
    cbn. repeat split. intros tc' [=].
Qed.

Lemma path_loop_keys (tcs : list ToolChangeEvent) (items : list (nat * string)) :
  forall st,
    (forall t, is_Some (tool_paths st !! t) \/ current_tool st = Some t ->
               tool_of tcs t) ->
    (forall t p, tool_paths st !! t = Some p -> p <> []) ->
    exists st',
      PyStr.for_loop (path_body tcs) items st = Some st'
      /\ (forall t, is_Some (tool_paths st' !! t) \/ current_tool st' = Some t ->
                    tool_of tcs t)
      /\ (forall t p, tool_paths st' !! t = Some p -> p <> []).
Proof.
  induction items as [|[i raw] items IH]; intros st Hkeys Hne;
    cbn [PyStr.for_loop]; [eauto|].
  destruct (path_body_cases tcs st i raw) as (st1 & -> & Hcase).
  cbn [mbind option_bind]. apply IH.
  - destruct Hcase as [[_ ->]|(_ & pt & [(tc & Htc & _ & Hp & Ht & _)
                                        |(_ & Hp & Ht & _)])];
      [exact Hkeys | | rewrite Hp, Ht; exact Hkeys].
    intros t [Hin|Hcur].
    + rewrite Hp in Hin. destruct (current_tool st) as [t0|] eqn:Ht0.
      * unfold flush_path in Hin.
        destruct (current_path st); [apply Hkeys; now left|].
        destruct (decide (t0 = t)) as [->|Hneq];
          [apply Hkeys; now right|].
        rewrite lookup_insert_ne in Hin by exact Hneq. apply Hkeys. now left.
      * apply Hkeys. now left.
    + exists tc. split; [|congruence].
      apply list_elem_of_In. eapply list_elem_of_lookup_2. exact Htc.
  - destruct Hcase as [[_ ->]|(_ & pt & [(tc & _ & _ & Hp & _)
                                        |(_ & Hp & _)])];
      [exact Hne | | rewrite Hp; exact Hne].
    rewrite Hp. now apply flush_path_nonempty.
Qed.

(** X9: whatever the application holds, [extract_tool_paths] returns a
    mapping; every key is the tool number of one of the tool changes and
    every stored path has at least one point.  Without a parser, or with
    a parser that has no tool change, the mapping is empty: the motion
    before the first tool change is dropped. *)
Theorem tool_paths_only_for_tools (app : GCodeParserApp) :
  exists m,
    extract_tool_paths app = Some m
    /\ (forall t path,
           m !! t = Some path ->
           path <> []
           /\ exists p, gcode_parser app = Some p
                        /\ tool_of (tool_changes p) t)
    /\ (gcode_parser app = None -> m = ∅)
    /\ (forall p, gcode_parser app = Some p -> tool_changes p = [] -> m = ∅).
Proof.
  unfold extract_tool_paths.
  destruct (gcode_parser app) as [p|].
  - set (st0 := {| tool_paths := ∅; current_tool := None; current_path := [];
                   walk_pos := origin; tc_idx := 0 |}).
    destruct (path_loop_keys (get_tool_changes p)
                (PyStr.enumerate 0 (lines p)) st0)
      as (st & -> & Hkeys & Hne).
    { intros t [Hin|Hcur]; [|discriminate].
      cbn in Hin. rewrite lookup_empty in Hin. now destruct Hin. }
    { intros t path. cbn. now rewrite lookup_empty. }
    cbn [mbind option_bind]. eexists. split; [reflexivity|].
    assert (Hall : forall t path,
               flush_path (current_tool st) (current_path st) (tool_paths st)
               !! t = Some path ->
               path <> [] /\ tool_of (tool_changes p) t).
    { intros t path Hpath.
      split; [exact (flush_path_nonempty _ _ _ Hne t path Hpath)|].
      apply Hkeys. unfold flush_path in Hpath.
      destruct (current_tool st) as [t0|]; [|left; eauto].
      destruct (current_path st); [left; eauto|].
      destruct (decide (t0 = t)) as [->|Hneq]; [now right|].
      rewrite lookup_insert_ne in Hpath by exact Hneq. left. eauto. }
    split; [|split; [discriminate|]].
    + intros t path Hpath. destruct (Hall t path Hpath). eauto.
    + intros p' [= <-] Hnone. apply map_eq. intros t. rewrite lookup_empty.
      destruct (_ !! t) as [path|] eqn:Hpath; [|reflexivity].
      destruct (Hall t path Hpath) as [_ (tc & Hin & _)].
      rewrite Hnone in Hin. destruct Hin.
  - eexists. split; [reflexivity|].
    split; [|split; [reflexivity | discriminate]].
    intros t path. now rewrite lookup_empty.
Qed.

(** The theorem of the path walk on a parser without tool changes. *)
Lemma tool_paths_only_for_tools_witness :
  exists m,
    extract_tool_paths {| gcode_parser := Some (loaded two_tools) |} = Some m
    /\ m = ∅.
Proof.
  destruct (tool_paths_only_for_tools
              {| gcode_parser := Some (loaded two_tools) |})
    as (m & Hm & _ & _ & Hnone).
  exists m. split; [exact Hm|]. apply (Hnone _ eq_refl). reflexivity.
Defined.

(** ** The path walk follows the detected tool changes *)

Lemma enumerate_app {A} (a b : list A) :
  forall k, PyStr.enumerate k (a ++ b)
            = PyStr.enumerate k a ++ PyStr.enumerate (k + length a) b.
Proof.
  induction a as [|x a IH]; intros k; cbn [app PyStr.enumerate length].
  - now rewrite Nat.add_0_r.
  - rewrite IH. now replace (S k + length a) with (k + S (length a)) by lia.
Qed.

Lemma tool_of_app (a b : list ToolChangeEvent) (t : string) :
  tool_of (a ++ b) t <-> tool_of a t \/ tool_of b t.
Proof.
  unfold tool_of. split.
  - intros (tc & Hin & Ht). apply in_app_or in Hin as [Hin|Hin]; eauto.
  - intros [(tc & Hin & Ht)|(tc & Hin & Ht)]; exists tc;
      (split; [apply in_or_app; auto | exact Ht]).
Qed.

Lemma walk_step (ls pre suf : list string) (raw : string) (st st' : PathWalk) :
  ls = pre ++ raw :: suf ->
  walk_ok (detect_tool_changes pre) st ->
  path_body (detect_tool_changes ls) st (length pre, raw) = Some st' ->
  walk_ok (detect_tool_changes (pre ++ [raw])) st'.
Proof.
  intros Hls (Hidx & Hcur & Hkeys & Hne) Hbody.
  rewrite !detect_tool_changes_flat in *.
  set (seen := flat_map (tool_change_body []) (PyStr.enumerate 1 pre)) in *.
  set (here := tool_change_body [] (1 + length pre, raw)).
  set (later := flat_map (tool_change_body [])
                  (PyStr.enumerate (S (1 + length pre)) suf)).
  assert (Hall : flat_map (tool_change_body []) (PyStr.enumerate 1 ls)
                 = seen ++ here ++ later).
  { rewrite Hls, enumerate_app, flat_map_app. reflexivity. }
  assert (Hnow : flat_map (tool_change_body [])
                   (PyStr.enumerate 1 (pre ++ [raw])) = seen ++ here).
  { rewrite enumerate_app, flat_map_app. cbn [PyStr.enumerate flat_map].
    now rewrite app_nil_r. }
  rewrite Hall in Hbody. rewrite Hnow.
  assert (Hlater : forall tc, later !! 0 = Some tc ->
                              length pre + 1 <> tc_line_number tc).
  { intros tc Htc.
    destruct (tool_changes_from suf (S (1 + length pre))) as [_ Hfrom].
    fold later in Hfrom. apply list_elem_of_lookup_2 in Htc.
    rewrite List.Forall_forall in Hfrom.
    apply list_elem_of_In, Hfrom in Htc. lia. }
  destruct (path_body_cases (seen ++ here ++ later) st (length pre) raw)
    as (st1 & Hst1 & Hcase).
  rewrite Hst1 in Hbody. injection Hbody as ->.
  rewrite lookup_app_r in Hcase by lia.
  rewrite Hidx, Nat.sub_diag in Hcase.
  destruct (tool_change_body_cases (1 + length pre) raw) as [Hnone|[t Hone]];
    fold here in Hnone || fold here in Hone.
  - (* the line changes no tool *)
    rewrite Hnone in *. rewrite app_nil_r. cbn [app] in Hcase.
    destruct Hcase as [[_ ->]|(_ & pt & [(tc & Htc & Hline & _)
                                        |(_ & Hp & Ht & Hpath & Hi)])].
    + repeat split; auto; apply Hkeys.
    + now destruct (Hlater tc Htc).
    + split; [congruence|]. split; [|split].
      * intros t _. rewrite Hpath. now destruct (current_path st).
      * intros t. rewrite Hp, Ht. apply Hkeys.
      * rewrite Hp. exact Hne.
  - (* the line changes the tool *)
    rewrite Hone in *. cbn [app lookup] in Hcase.
    destruct Hcase as [[Hskip _]|(_ & pt & [(tc & Htc & _ & Hp & Ht & Hpath & Hi)
                                           |(Hno & _)])].
    + unfold here, tool_change_body in Hone. rewrite Hskip in Hone.
      discriminate.
    + injection Htc as <-. cbn [tc_tool_number] in Ht.
      split; [rewrite length_app; cbn; lia|]. split; [|split].
      * intros t0 _. now rewrite Hpath.
      * intros t0. rewrite tool_of_app, <- Hkeys, Hp, Ht.
        rewrite (flush_path_lookup _ _ _ t0 Hcur).
        unfold tool_of. cbn [In]. split.
        -- intros [H|H]; [now left|]. right. eexists. split; [now left|].
           exact H.
        -- intros [H|(tc & [<-|[]] & H)]; [now left | now right].
      * rewrite Hp. now apply flush_path_nonempty.
    + exfalso. apply (Hno _ eq_refl). cbn. lia.
Qed.

Lemma walk_loop (ls suf : list string) :
  forall (pre : list string) (st : PathWalk),
    ls = pre ++ suf ->
    walk_ok (detect_tool_changes pre) st ->
    exists st',
      PyStr.for_loop (path_body (detect_tool_changes ls))
        (PyStr.enumerate (length pre) suf) st = Some st'
      /\ walk_ok (detect_tool_changes ls) st'.
Proof.
  induction suf as [|raw suf IH]; intros pre st Hls Hok.
  - exists st. split; [reflexivity|].
    rewrite app_nil_r in Hls. now subst pre.
  - cbn [PyStr.enumerate PyStr.for_loop].
    destruct (path_body_cases (detect_tool_changes ls) st (length pre) raw)
      as (st1 & Hst1 & _).
    rewrite Hst1. cbn [mbind option_bind].
    destruct (IH (pre ++ [raw]) st1) as (st' & Hloop & Hok').
    + now rewrite <- app_assoc.
    + exact (walk_step ls pre suf raw st st1 Hls Hok Hst1).
    + rewrite length_app, Nat.add_1_r in Hloop. eauto.
Qed.

(** X10: after a file is parsed, [extract_tool_paths] returns a path
    for exactly the tools that [detect_tool_changes] found: every
    detected tool change is taken by the walk, so no tool is left without
    a path and no other key appears. *)
Theorem every_detected_tool_has_a_path (ls : list string) :
  exists app m,
    app_after_parse ls = Some app
    /\ extract_tool_paths app = Some m
    /\ forall t, is_Some (m !! t) <-> tool_of (detect_tool_changes ls) t.
Proof.
  destruct (detect_retractions_total ls) as (sc & _ & _ & Hdet).
  destruct (walk_loop ls ls [] {| tool_paths := ∅; current_tool := None;
                                  current_path := []; walk_pos := origin;
                                  tc_idx := 0 |} eq_refl)
    as (st & Hloop & _ & Hcur & Hkeys & _).
  { split; [reflexivity|]. split; [discriminate|]. split.
    - intros t. cbn. rewrite lookup_empty. split.
      + intros [[? [=]]|[=]].
      + intros (tc & [] & _).
    - intros t p. cbn. now rewrite lookup_empty. }
  cbn [length] in Hloop.
  unfold app_after_parse, parse. cbn [lines loaded]. rewrite Hdet.
  cbn [mbind option_bind]. eexists.
  exists (flush_path (current_tool st) (current_path st) (tool_paths st)).
  split; [reflexivity|].
  unfold extract_tool_paths.
  cbn [gcode_parser get_tool_changes tool_changes lines].
  rewrite Hloop. cbn [mbind option_bind].
  split; [reflexivity|].
  intros t. rewrite (flush_path_lookup _ _ _ t Hcur). apply Hkeys.
Qed.

(** ** Rapid segments *)

Lemma rapid_body_cases (tcs : list ToolChangeEvent) (st : RapidWalk) (i : nat)
  (raw : string) :
  exists st',
    rapid_body tcs st (i, raw) = Some st'
    /\ (is_skipped (PyStr.strip raw) = true /\ st' = st
        \/ is_skipped (PyStr.strip raw) = false
           /\ exists pos,
               (seg_tool st' = seg_tool st
                \/ exists tc, In tc tcs /\ seg_tool st' = tc_tool_number tc)
               /\ rapid_segments st'
                  = if starts_rapid raw
                    then add_segment (seg_tool st') (prev_pos st) pos
                           (rapid_segments st)
                    else rapid_segments st).
Proof.
  unfold rapid_body.
  destruct (is_skipped (PyStr.strip raw)) eqn:Hskip; [eauto|].
  set (choice := match tcs !! seg_tc_idx st with
                 | Some tc =>
                     if (i + 1 =? tc_line_number tc)%nat
                     then (tc_tool_number tc, seg_tc_idx st + 1)
                     else (seg_tool st, seg_tc_idx st)
                 | None => (seg_tool st, seg_tc_idx st)
                 end).
  assert (Hchoice : choice.1 = seg_tool st
                    \/ exists tc, In tc tcs /\ choice.1 = tc_tool_number tc).
  { subst choice. destruct (tcs !! seg_tc_idx st) as [tc|] eqn:Htc; [|now left].
    destruct (_ =? _)%nat; [|now left]. right. exists tc.
    split; [|reflexivity].
    apply list_elem_of_In. eapply list_elem_of_lookup_2. exact Htc. }
  destruct choice as [tool idx]. cbn [fst] in Hchoice.
  destruct (read_axes_total (PyStr.strip raw) (seg_pos st)) as [pos ->].
  cbn [mbind option_bind]. eexists. split; [reflexivity|].
  right. split; [reflexivity|]. exists pos. cbn. auto.
Qed.

Lemma add_segment_keys (tcs : list ToolChangeEvent) (tool : option string)
  (before : option Position) (after : Position)
  (segs : gmap string (list (list float * list float))) :
  (forall t, tool = Some t -> tool_of tcs t) ->
  (forall t l, segs !! t = Some l -> l <> [] /\ tool_of tcs t) ->
  forall t l, add_segment tool before after segs !! t = Some l ->
              l <> [] /\ tool_of tcs t.
Proof.
  intros Htool Hsegs t l. unfold add_segment.
  destruct before as [b|]; [|apply Hsegs].
  destruct tool as [t0|]; [|apply Hsegs].
  destruct (decide (t0 = t)) as [->|Hne].
  - rewrite lookup_insert_eq. intros [= <-].
    split; [|now apply Htool]. now destruct (default [] (segs !! t)).
  - rewrite lookup_insert_ne by exact Hne. apply Hsegs.
Qed.

Lemma rapid_loop (tcs : list ToolChangeEvent) (items : list (nat * string)) :
  forall st,
    (forall t, seg_tool st = Some t -> tool_of tcs t) ->
    (forall t l, rapid_segments st !! t = Some l -> l <> [] /\ tool_of tcs t) ->
    exists st',
      PyStr.for_loop (rapid_body tcs) items st = Some st'
      /\ (forall t l, rapid_segments st' !! t = Some l ->
                      l <> [] /\ tool_of tcs t)
      /\ (Forall (fun item => no_rapid_word item.2 = true) items ->
          rapid_segments st' = rapid_segments st).
Proof.
  induction items as [|[i raw] items IH]; intros st Htool Hsegs;
    cbn [PyStr.for_loop]; [eauto|].
  destruct (rapid_body_cases tcs st i raw) as (st1 & -> & Hcase).
  cbn [mbind option_bind].
  assert (Htool1 : forall t, seg_tool st1 = Some t -> tool_of tcs t).
  { destruct Hcase as [[_ ->]|(_ & pos & [Hsame|(tc & Hin & Htc)] & _)];
      [exact Htool | now rewrite Hsame |].
    intros t Ht. exists tc. split; [exact Hin | congruence]. }
  assert (Hsegs1 : forall t l, rapid_segments st1 !! t = Some l ->
                               l <> [] /\ tool_of tcs t).
  { destruct Hcase as [[_ ->]|(_ & pos & _ & Hseg)]; [exact Hsegs|].
    rewrite Hseg. destruct (starts_rapid raw); [|exact Hsegs].
    now apply add_segment_keys. }
  destruct (IH st1 Htool1 Hsegs1) as (st' & Hloop & Hkeys' & Hnone').
  exists st'. split; [exact Hloop|]. split; [exact Hkeys'|].
  intros Hall. apply Forall_cons_1 in Hall as [Hraw Hall].
  rewrite (Hnone' Hall). unfold no_rapid_word in Hraw. cbn [snd] in Hraw.
  destruct Hcase as [[_ ->]|(Hskip & pos & _ & Hseg)]; [reflexivity|].
  rewrite Hskip in Hraw. cbn [orb] in Hraw. apply negb_true_iff in Hraw.
  now rewrite Hseg, Hraw.
Qed.

(** X11: whatever the application holds, [extract_rapid_segments]
    returns a mapping; every key is the tool number of one of the tool
    changes and every stored list has at least one segment.  When no
    command line starts with the word G0 or G00 the mapping is empty. *)
Theorem rapid_segments_only_on_rapid_words (app : GCodeParserApp) :
  exists m,
    extract_rapid_segments app = Some m
    /\ (forall t segs,
           m !! t = Some segs ->
           segs <> []
           /\ exists p, gcode_parser app = Some p
                        /\ tool_of (tool_changes p) t)
    /\ (forall p,
           gcode_parser app = Some p ->
           Forall (fun raw => no_rapid_word raw = true) (lines p) ->
           m = ∅).
Proof.
  unfold extract_rapid_segments.
  destruct (gcode_parser app) as [p|].
  - destruct (rapid_loop (get_tool_changes p) (PyStr.enumerate 0 (lines p))
                {| rapid_segments := ∅; seg_tool := None; seg_tc_idx := 0;
                   seg_pos := origin; prev_pos := None |})
      as (st & -> & Hkeys & Hnone).
    { discriminate. }
    { intros t l. cbn. now rewrite lookup_empty. }
    cbn [mbind option_bind]. eexists. split; [reflexivity|]. split.
    + intros t segs Hsegs. destruct (Hkeys t segs Hsegs). eauto.
    + intros p' [= <-] Hall. apply Hnone.
      exact (Forall_enumerate (fun raw => no_rapid_word raw = true) _ Hall 0).
  - eexists. split; [reflexivity|]. split; [|discriminate].
    intros t segs. now rewrite lookup_empty.
Qed.

(** The theorem on a file of feed moves, [G01] included. *)
Lemma rapid_segments_only_on_rapid_words_witness :
  exists m,
    extract_rapid_segments
      {| gcode_parser :=
           Some {| lines := ["T1"; "G1 X1"; "G01 X2"];
                   tool_changes :=
                     [{| tc_line_number := 1; tc_tool_number := Some "1";
                         tc_line_content := "T1" |}];
                   retractions := [] |} |}
    = Some m
    /\ m = ∅.
Proof.
  destruct (rapid_segments_only_on_rapid_words
              {| gcode_parser :=
                   Some {| lines := ["T1"; "G1 X1"; "G01 X2"];
                           tool_changes :=
                             [{| tc_line_number := 1;
                                 tc_tool_number := Some "1";
                                 tc_line_content := "T1" |}];
                           retractions := [] |} |})
    as (m & Hm & _ & Hnone).
  exists m. split; [exact Hm|].
  apply (Hnone _ eq_refl). repeat constructor.
Defined.

(** ** The tool that governs a line *)

Lemma tool_for_line_sorted (tcs : list ToolChangeEvent) (n : nat) :
  StronglySorted (fun a b => tc_line_number a < tc_line_number b) tcs ->
  forall cur,
    tool_for_line_from cur tcs n
    = match governing tcs n with
      | Some tc => tc_tool_number tc
      | None => cur
      end.
Proof.
  unfold governing.
  induction 1 as [|tc tcs Hsorted IH Hlater]; intros cur;
    cbn [tool_for_line_from]; [reflexivity|].
  rewrite filter_cons.
  destruct (Nat.leb_spec (tc_line_number tc) n) as [Hle|Hgt].
  - destruct (decide (tc_line_number tc <= n)); [|lia].
    rewrite IH. rewrite last_cons.
    now destruct (last (filter _ tcs)).
  - destruct (decide (tc_line_number tc <= n)); [lia|].
    replace (filter (fun tc0 => tc_line_number tc0 <= n) tcs) with
      (@nil ToolChangeEvent); [reflexivity|].
    symmetry. clear -Hlater Hgt.
    induction Hlater as [|tc' tcs Hlt _ IH]; [reflexivity|].
    rewrite filter_cons. destruct (decide (tc_line_number tc' <= n)); [lia|].
    exact IH.
Qed.

(** X12: on a parsed file [_tool_for_line] returns the tool number of
    the last tool change at or before the line, and [None] for a line
    before the first tool change; without a parser it raises. *)
Theorem tool_for_line_is_the_governing_tool (ls : list string) (n : nat) :
  (exists app,
      app_after_parse ls = Some app
      /\ _tool_for_line app n
         = Some (governing (detect_tool_changes ls) n ≫= tc_tool_number))
  /\ _tool_for_line {| gcode_parser := None |} n = None.
Proof.
  split; [|reflexivity].
  destruct (detect_retractions_total ls) as (sc & _ & _ & Hdet).
  unfold app_after_parse, parse. cbn [lines loaded]. rewrite Hdet.
  cbn [mbind option_bind]. eexists. split; [reflexivity|].
  unfold _tool_for_line.
  cbn [gcode_parser get_tool_changes tool_changes mbind option_bind].
  f_equal. rewrite tool_for_line_sorted.
  - now destruct (governing _ _).
  - rewrite detect_tool_changes_flat. apply tool_changes_from.
Qed.

(** ** Loading from a string *)

Lemma all_chars_impl (p q : ascii -> bool) (s : string) :
  (forall c, p c = true -> q c = true) ->
  all_chars p s = true -> all_chars q s = true.
Proof.
  intros Hpq. induction s as [|c s IH]; [reflexivity|]. cbn [all_chars].
  intros [Hc Hs]%andb_true_iff. now rewrite (Hpq c Hc), IH.
Qed.

Lemma all_chars_lstrip (p : ascii -> bool) (s : string) :
  all_chars p s = true -> all_chars p (PyStr.lstrip s) = true.
Proof.
  induction s as [|c s IH]; [reflexivity|]. cbn [PyStr.lstrip].
  destruct (PyStr.is_space c); [|auto]. cbn [all_chars].
  intros [_ Hs]%andb_true_iff. auto.
Qed.

Lemma all_chars_rstrip (p : ascii -> bool) (s : string) :
  all_chars p s = true -> all_chars p (PyStr.rstrip s) = true.
Proof.
  induction s as [|c s IH]; [reflexivity|]. cbn [PyStr.rstrip all_chars].
  intros [Hc Hs]%andb_true_iff.
  destruct (PyStr.is_empty (PyStr.rstrip s) && PyStr.is_space c);
    [reflexivity|].
  cbn [all_chars]. now rewrite Hc, IH.
Qed.

Lemma all_chars_strip (p : ascii -> bool) (s : string) :
  all_chars p s = true -> all_chars p (PyStr.strip s) = true.
Proof. intros H. now apply all_chars_rstrip, all_chars_lstrip. Qed.

Lemma not_break_not_newline (c : ascii) :
  not_break c = true -> not_char "010" c = true.
Proof.
  unfold not_break, not_char. destruct (Ascii.eqb_spec "010" c) as [<-|];
    [discriminate | reflexivity].
Qed.

Lemma splitlines_from_clean (n : nat) :
  forall s cur,
    String.length s <= n ->
    all_chars not_break cur = true ->
    Forall (fun line => all_chars not_break line = true)
           (splitlines_from cur s).
Proof.
  induction n as [|n IH]; intros s cur Hlen Hcur.
  - destruct s; [|cbn in Hlen; lia]. cbn [splitlines_from].
    destruct (PyStr.is_empty cur); repeat constructor. exact Hcur.
  - destruct s as [|c s]; cbn [splitlines_from].
    + destruct (PyStr.is_empty cur); repeat constructor. exact Hcur.
    + cbn [String.length] in Hlen.
      destruct (is_break c) eqn:Hc.
      * destruct s as [|d s]; [repeat constructor; exact Hcur|].
        cbn [String.length] in Hlen.
        destruct (_ && _); constructor; try exact Hcur;
          apply IH; try reflexivity; cbn [String.length]; lia.
      * apply IH; [lia|]. rewrite all_chars_app, Hcur. cbn [all_chars].
        unfold not_break at 1. now rewrite Hc.
Qed.

(** X13: the lines loaded from a content string hold no line-break
    character, whatever the content.  So on each of them, stripped as
    the detectors strip it, comment removal is exactly: delete the
    parenthesised comments, keep what stands before the first
    semicolon. *)
Theorem loaded_lines_hold_no_line_break (content : string) :
  Forall (fun raw =>
            all_chars not_break raw = true
            /\ remove_comments (PyStr.strip raw)
               = before_semicolon
                   (Re.remove Pat.paren_comment (PyStr.strip raw)))
         (lines (new_from_content content)).
Proof.
  assert (H : Forall (fun line => all_chars not_break line = true)
                     (lines (new_from_content content))).
  { cbn [new_from_content lines].
    destruct (PyStr.is_empty content); [constructor|].
    now apply (splitlines_from_clean (String.length content)). }
  eapply Forall_impl; [exact H|]. cbn beta. intros raw Hraw.
  split; [exact Hraw|].
  unfold remove_comments, Re.remove at 1.
  assert (Hline : all_chars (not_char "010") (PyStr.strip raw) = true).
  { apply all_chars_strip.
    eapply all_chars_impl; [exact not_break_not_newline | exact Hraw]. }
  apply remove_semicolon_from; [lia|]. now apply remove_from_keeps.
Qed.

Lemma splitlines_from_line (l : string) :
  all_chars not_break l = true ->
  forall cur rest,
    splitlines_from cur (l +:+ rest) = splitlines_from (cur +:+ l) rest.
Proof.
  induction l as [|c l IH]; intros Hl cur rest.
  - now rewrite string_app_nil_r.
  - cbn [all_chars] in Hl. apply andb_true_iff in Hl as [Hc Hl].
    rewrite string_app_cons. cbn [splitlines_from].
    unfold not_break in Hc. apply negb_true_iff in Hc. rewrite Hc.
    rewrite (IH Hl), string_app_assoc. reflexivity.
Qed.

Lemma join_nonempty (q : string) (rest : list string) :
  last (q :: rest) <> Some "" -> PyStr.join nl (q :: rest) <> "".
Proof.
  destruct rest as [|r rest]; cbn [PyStr.join].
  - cbn. congruence.
  - intros _. destruct q; discriminate.
Qed.

Lemma splitlines_join (ls : list string) :
  Forall (fun l => all_chars not_break l = true) ls ->
  last ls <> Some "" ->
  splitlines (PyStr.join nl ls) = ls.
Proof.
  unfold splitlines.
  induction 1 as [|p ls Hp Hls IH]; intros Hlast; [reflexivity|].
  destruct ls as [|q rest].
  - cbn [PyStr.join].
    rewrite <- (string_app_nil_r p) at 1.
    rewrite (splitlines_from_line p Hp). cbn [splitlines_from].
    change ("" +:+ p) with p.
    destruct p; [now cbn in Hlast | reflexivity].
  - assert (Hlast' : last (q :: rest) <> Some "").
    { intros Hq. apply Hlast. now rewrite last_cons, Hq. }
    change (PyStr.join nl (p :: q :: rest))
      with (p +:+ nl +:+ PyStr.join nl (q :: rest)).
    rewrite (splitlines_from_line p Hp).
    change ("" +:+ p) with p.
    pose proof (join_nonempty q rest Hlast') as Hne.
    rewrite <- (IH Hlast') at 2.
    destruct (PyStr.join nl (q :: rest)) as [|d s]; [congruence|].
    reflexivity.
Qed.

(** X14: lines without line-break characters, the last of them not
    empty, joined with newlines and loaded as content, come back as
    they were; the tool changes found are then those of the lines. *)
Theorem loading_joined_lines_gives_them_back (ls : list string) :
  Forall (fun l => all_chars not_break l = true) ls ->
  last ls <> Some "" ->
  lines (new_from_content (PyStr.join nl ls)) = ls
  /\ detect_tool_changes (lines (new_from_content (PyStr.join nl ls)))
     = detect_tool_changes ls.
Proof.
  intros Hls Hlast.
  assert (H : lines (new_from_content (PyStr.join nl ls)) = ls).
  { cbn [new_from_content lines].
    pose proof (splitlines_join ls Hls Hlast) as Hsplit.
    destruct (PyStr.join nl ls); exact Hsplit. }
  now rewrite H.
Qed.

(** The theorem on the four lines of the two-tool example. *)
Lemma loading_joined_lines_gives_them_back_witness :
  lines (new_from_content (PyStr.join nl two_tools)) = two_tools
  /\ detect_tool_changes (lines (new_from_content (PyStr.join nl two_tools)))
     = detect_tool_changes two_tools.
Proof.
  apply (loading_joined_lines_gives_them_back two_tools).
  - repeat constructor.
  - vm_compute. discriminate.
Defined.

(** ** Tool-change detection composes *)

Lemma tool_change_body_shift (k n : nat) (raw : string) :
  tool_change_body [] (k + n, raw)
  = map (renumber k) (tool_change_body [] (n, raw)).
Proof.
  unfold tool_change_body.
  destruct (is_skipped _); [reflexivity|].
  now destruct (first_match _ _).
Qed.

Lemma tool_changes_shift (k : nat) (ls : list string) :
  forall start,
    flat_map (tool_change_body []) (PyStr.enumerate (k + start) ls)
    = map (renumber k)
          (flat_map (tool_change_body []) (PyStr.enumerate start ls)).
Proof.
  induction ls as [|raw ls IH]; intros start;
    cbn [flat_map PyStr.enumerate]; [reflexivity|].
  rewrite map_app, <- tool_change_body_shift. f_equal.
  rewrite <- IH. now rewrite Nat.add_succ_r.
Qed.

(** X15: tool-change detection keeps no state from line to line: the
    events of a file made of two parts are the events of the first part
    followed by the events of the second part, found on its own, with
    their line numbers moved down by the length of the first part. *)
Theorem tool_changes_compose (a b : list string) :
  detect_tool_changes (a ++ b)
  = detect_tool_changes a
    ++ map (renumber (length a)) (detect_tool_changes b).
Proof.
  rewrite !detect_tool_changes_flat, enumerate_app, flat_map_app.
  f_equal. rewrite <- tool_changes_shift. now rewrite Nat.add_comm.
Qed.
